(** * bizfinder: the deep file parser ([core/file_parser.py])

    A shallow embedding of [FileParser] and the properties of its text
    extraction pipeline: the format dispatcher [parse], the record tokenizer
    and text decoder of the legacy HWP container, the section discovery of
    the HWPX archive, the PDF page extractor and the text normalizer. *)

From Stdlib Require Import ZArith List Bool Lia Strings.Byte Ascii String.
From Stdlib Require Import Sorting.Permutation Sorting.Sorted.
Import ListNotations.
Open Scope Z_scope.

(** ** Python values *)

(** A Python [str] is a sequence of code points, a [bytes] object a sequence
    of octets. *)
Definition pystr := list Z.
Definition bytes := list byte.

(** An ASCII literal as a [str]. *)
Definition lit (s : string) : pystr :=
  map (fun a => Z.of_N (N_of_ascii a)) (list_ascii_of_string s).

(** [len(x)] *)
Definition len {A : Type} (l : list A) : Z := Z.of_nat (List.length l).

Definition byte_val (b : byte) : Z := Z.of_N (Byte.to_N b).

(** The octet with value [z mod 256]. *)
Definition byte_of_Z (z : Z) : byte :=
  match Byte.of_N (Z.to_N (z mod 256)) with
  | Some b => b
  | None => x00
  end.

(** The exceptions of the module, all subclasses of [Exception]; the last
    constructor stands for any other subclass.  Each carries [str(e)]. *)
Inductive exn : Type :=
| FileNotFoundError (msg : pystr)
| ValueError (msg : pystr)
| struct_error (msg : pystr)
| BadZipFile (msg : pystr)
| Exception (msg : pystr).

Definition str_of_exn (e : exn) : pystr :=
  match e with
  | FileNotFoundError m | ValueError m | struct_error m
  | BadZipFile m | Exception m => m
  end.

(** The result of running a piece of Python: a value, a raised exception, or
    a loop of the model that used up its fuel. *)
Inductive outcome (A : Type) : Type :=
| Return (a : A)
| Raise (e : exn)
| OutOfFuel.
Arguments Return {A} a.
Arguments Raise {A} e.
Arguments OutOfFuel {A}.

Definition bind {A B : Type} (m : outcome A) (k : A -> outcome B) : outcome B :=
  match m with
  | Return a => k a
  | Raise e => Raise e
  | OutOfFuel => OutOfFuel
  end.

Notation "x <- m ;; k" := (bind m (fun x => k))
  (at level 61, m at next level, right associativity).

(** The result of a call into a library or into the file system: a value or
    a raised exception. *)
Inductive result (A : Type) : Type :=
| Ok (a : A)
| Err (e : exn).
Arguments Ok {A} a.
Arguments Err {A} e.

Definition call {A : Type} (r : result A) : outcome A :=
  match r with
  | Ok a => Return a
  | Err e => Raise e
  end.

(** ** String helpers of the Python standard library *)

Definition str_eqb (a b : pystr) : bool :=
  if list_eq_dec Z.eq_dec a b then true else false.

(** [sep.join(l)] *)
Fixpoint join (sep : pystr) (l : list pystr) : pystr :=
  match l with
  | [] => []
  | [x] => x
  | x :: l' => x ++ sep ++ join sep l'
  end.

(** [s.startswith(p)] *)
Fixpoint startswith (p s : pystr) : bool :=
  match p, s with
  | [], _ => true
  | _ :: _, [] => false
  | a :: p', b :: s' => (a =? b) && startswith p' s'
  end.

(** [s.endswith(p)] *)
Definition endswith (p s : pystr) : bool := startswith (rev p) (rev s).

(** [str.isspace] on one code point: the ASCII white space table and the
    Unicode white space characters above it. *)
Definition isspace (c : Z) : bool :=
  ((0x09 <=? c) && (c <=? 0x0D)) || ((0x1C <=? c) && (c <=? 0x20))
  || (c =? 0x85) || (c =? 0xA0) || (c =? 0x1680)
  || ((0x2000 <=? c) && (c <=? 0x200A))
  || (c =? 0x2028) || (c =? 0x2029) || (c =? 0x202F) || (c =? 0x205F)
  || (c =? 0x3000).

Fixpoint lstrip (s : pystr) : pystr :=
  match s with
  | c :: s' => if isspace c then lstrip s' else s
  | [] => []
  end.

Definition rstrip (s : pystr) : pystr := rev (lstrip (rev s)).

(** [s.strip()] *)
Definition strip (s : pystr) : pystr := rstrip (lstrip s).

(** Truth value of a [str]: non-empty. *)
Definition truthy (s : pystr) : bool :=
  match s with [] => false | _ :: _ => true end.

(** Truth value of a list: non-empty. *)
Definition nonempty {A : Type} (l : list A) : bool :=
  match l with [] => false | _ :: _ => true end.

(** The characters of [s] before the first [c]. *)
Fixpoint take_until (c : Z) (s : pystr) : pystr :=
  match s with
  | [] => []
  | x :: s' => if x =? c then [] else x :: take_until c s'
  end.

(** [s.split('\n')], with the line under construction in [cur]. *)
Fixpoint split_lines_aux (cur : pystr) (s : pystr) : list pystr :=
  match s with
  | [] => [rev cur]
  | c :: s' =>
      if c =? 10 then rev cur :: split_lines_aux [] s'
      else split_lines_aux (c :: cur) s'
  end.

Definition split_lines (s : pystr) : list pystr := split_lines_aux [] s.

(** [data[a:b]] for non-negative [a] and [b]. *)
Definition slice (data : bytes) (a b : Z) : bytes :=
  firstn (Z.to_nat (b - a)) (skipn (Z.to_nat a) data).

(** The unsigned little-endian value of two and of four octets. *)
Definition le16 (b0 b1 : byte) : Z := byte_val b0 + 256 * byte_val b1.

Definition le32 (b0 b1 b2 b3 : byte) : Z :=
  byte_val b0 + 256 * byte_val b1
  + 65536 * byte_val b2 + 16777216 * byte_val b3.

(** [struct.unpack_from("<H", data, offset)[0]]: [struct.error] when fewer
    than two octets are left at [offset]. *)
Definition unpack_from_H (data : bytes) (offset : Z) : outcome Z :=
  match skipn (Z.to_nat offset) data with
  | b0 :: b1 :: _ => Return (le16 b0 b1)
  | _ => Raise (struct_error (lit "unpack_from requires a buffer of at least 2 bytes"))
  end.

(** [struct.unpack_from("<I", data, offset)[0]] *)
Definition unpack_from_I (data : bytes) (offset : Z) : outcome Z :=
  match skipn (Z.to_nat offset) data with
  | b0 :: b1 :: b2 :: b3 :: _ =>
      Return (le32 b0 b1 b2 b3)
  | _ => Raise (struct_error (lit "unpack_from requires a buffer of at least 4 bytes"))
  end.

(** [struct.pack("<I", n)] for [0 <= n < 2^32]. *)
Definition pack_I (n : Z) : bytes :=
  [byte_of_Z n; byte_of_Z (n / 256); byte_of_Z (n / 65536);
   byte_of_Z (n / 16777216)].

(** [struct.pack("<H", n)] for [0 <= n < 2^16]. *)
Definition pack_H (n : Z) : bytes := [byte_of_Z n; byte_of_Z (n / 256)].

(** [chr(code)]: [ValueError] outside the code point range. *)
Definition chr (code : Z) : option Z :=
  if (0 <=? code) && (code <=? 0x10FFFF) then Some code else None.

(** ** [FileParser._decode_hwp_text] *)

(** The control codes the source lists as carrying an extended payload. *)
Definition extended_controls : list Z :=
  [0x0003; 0x0011; 0x0012; 0x0013; 0x0014; 0x0015; 0x0016; 0x0017; 0x0018].

(** The [while i < len(data) - 1] loop; [result] is the list of characters
    appended so far. *)
Fixpoint decode_loop (fuel : nat) (data : bytes) (i : Z) (result : pystr)
  : outcome pystr :=
  match fuel with
  | O => OutOfFuel
  | S fuel' =>
      if i <? len data - 1 then
        code <- unpack_from_H data i ;;
        if code =? 0x000D then
          decode_loop fuel' data (i + 2) (result ++ [10])
        else if code <=? 0x001F then
          if existsb (Z.eqb code) extended_controls then
            decode_loop fuel' data (i + 2) result
          else
            decode_loop fuel' data (i + 2) result
        else
          match chr code with
          | Some char => decode_loop fuel' data (i + 2) (result ++ [char])
          | None => decode_loop fuel' data (i + 2) result
          end
      else Return result
  end.

Definition _decode_hwp_text (data : bytes) : outcome pystr :=
  decode_loop (S (List.length data)) data 0 [].

(** ** [FileParser._extract_text_from_hwp_records] *)

(** The three fields of the 32-bit record header.  The source computes
    [tag_id] and [size]; its line for [level] is commented out as unused and
    is kept here for the layout. *)
Definition header_tag_id (header : Z) : Z := Z.land header 0x3FF.
Definition header_level (header : Z) : Z := Z.land (Z.shiftr header 10) 0x3FF.
Definition header_size (header : Z) : Z := Z.land (Z.shiftr header 20) 0xFFF.

(** The head of the loop body: the header word and, behind the escape value
    [0xFFF], the extended size.  [None] is a [break]; otherwise the result is
    [(tag_id, size, offset)] with [offset] at the payload. *)
Definition read_record_header (data : bytes) (offset : Z)
  : outcome (option (Z * Z * Z)) :=
  let data_len := len data in
  if offset + 4 >? data_len then Return None
  else
    header <- unpack_from_I data offset ;;
    let offset := offset + 4 in
    let tag_id := header_tag_id header in
    let size := header_size header in
    if size =? 0xFFF then
      if offset + 4 >? data_len then Return None
      else
        size <- unpack_from_I data offset ;;
        Return (Some (tag_id, size, offset + 4))
    else Return (Some (tag_id, size, offset)).

(** One iteration of the [while offset < data_len] loop: [None] is a
    [break], otherwise the new cursor and the texts collected so far. *)
Definition record_step (data : bytes) (offset : Z) (texts : list pystr)
  : outcome (option (Z * list pystr)) :=
  r <- read_record_header data offset ;;
  match r with
  | None => Return None
  | Some (tag_id, size, offset) =>
      if offset + size >? len data then Return None
      else
        texts' <- (if tag_id =? 67 then
                     text <- _decode_hwp_text (slice data offset (offset + size)) ;;
                     Return (if truthy (strip text) then texts ++ [text]
                             else texts)
                   else Return texts) ;;
        Return (Some (offset + size, texts'))
  end.

Fixpoint records_loop (fuel : nat) (data : bytes) (offset : Z)
  (texts : list pystr) : outcome (list pystr) :=
  match fuel with
  | O => OutOfFuel
  | S fuel' =>
      if offset <? len data then
        r <- record_step data offset texts ;;
        match r with
        | None => Return texts
        | Some (offset', texts') => records_loop fuel' data offset' texts'
        end
      else Return texts
  end.

Definition _extract_text_from_hwp_records (data : bytes) : outcome pystr :=
  texts <- records_loop (S (List.length data)) data 0 [] ;;
  Return (join [10] texts).

(** [TestHWPParser._build_hwp_record] of [tests/test_file_parser.py]: the
    serializer of one record, for [len(data) < 2^32]. *)
Definition _build_hwp_record (tag_id : Z) (data : bytes) (level : Z) : bytes :=
  let size := len data in
  if size >=? 0xFFF then
    let header :=
      Z.lor (Z.lor (Z.land tag_id 0x3FF) (Z.shiftl (Z.land level 0x3FF) 10))
            (Z.shiftl 0xFFF 20) in
    pack_I header ++ pack_I size ++ data
  else
    let header :=
      Z.lor (Z.lor (Z.land tag_id 0x3FF) (Z.shiftl (Z.land level 0x3FF) 10))
            (Z.shiftl (Z.land size 0xFFF) 20) in
    pack_I header ++ data.

(** [s.encode("utf-16-le")]: a code point of the Basic Multilingual Plane is
    one code unit, one above it a surrogate pair; a surrogate code point in
    [s] is a [UnicodeEncodeError]. *)
Definition encode_utf16le_char (c : Z) : outcome bytes :=
  if (0xD800 <=? c) && (c <=? 0xDFFF) then
    Raise (Exception (lit "surrogates not allowed"))
  else if c <? 0x10000 then Return (pack_H c)
  else
    let v := c - 0x10000 in
    Return (pack_H (0xD800 + v / 1024) ++ pack_H (0xDC00 + v mod 1024)).

Fixpoint encode_utf16le (s : pystr) : outcome bytes :=
  match s with
  | [] => Return []
  | c :: s' =>
      b <- encode_utf16le_char c ;;
      bs <- encode_utf16le s' ;;
      Return (b ++ bs)
  end.

(** The code units of a byte string, two octets each, little-endian; a
    trailing single octet is no unit. *)
Fixpoint code_units (data : bytes) : list Z :=
  match data with
  | b0 :: b1 :: rest => le16 b0 b1 :: code_units rest
  | _ => []
  end.

(** ** [FileParser._clean_text] *)

(** [re.sub(r'\n{3,}', '\n\n', text)]: [run] counts the newlines of the run
    being read. *)
Definition flush_newlines (run : nat) : pystr :=
  if (3 <=? run)%nat then [10; 10] else repeat 10 run.

Fixpoint sub_newlines (run : nat) (s : pystr) : pystr :=
  match s with
  | [] => flush_newlines run
  | c :: s' =>
      if c =? 10 then sub_newlines (S run) s'
      else flush_newlines run ++ c :: sub_newlines O s'
  end.

Definition _clean_text (text : pystr) : pystr :=
  if negb (truthy text) then []
  else
    let text := sub_newlines O text in
    let lines := map strip (split_lines text) in
    let text := join [10] lines in
    strip text.

(** ** [FileParser._extract_text_from_hwpx_xml] *)

Module HwpxXml.

(** An element of [xml.etree.ElementTree]: its tag (["{uri}local"] when it
    has a namespace), its text ([None] without text) and its children. *)
#[warnings="-register-all"]
Inductive element : Type :=
| Element (tag : pystr) (text : option pystr) (children : list element).

Definition tag_of (e : element) : pystr :=
  match e with Element tag _ _ => tag end.

Definition text_of (e : element) : option pystr :=
  match e with Element _ text _ => text end.

Definition children_of (e : element) : list element :=
  match e with Element _ _ children => children end.

(** [e.iter()]: the element and its descendants, in document order. *)
Fixpoint iter (e : element) : list element :=
  match e with
  | Element _ _ children => e :: flat_map iter children
  end.

(** What [ET.fromstring] gives: a tree, [ET.ParseError], or another
    exception. *)
Inductive parsed : Type :=
| Parsed (root : element)
| ParseError
| Failed (e : exn).

Definition known_namespaces : list pystr :=
  [lit "http://www.hancom.co.kr/hwpml/2011/paragraph";
   lit "http://www.hancom.co.kr/hwpml/2016/paragraph";
   lit "urn:hancom:hwpml:paragraph"].

(** [root.findall(".//hp:t", {"hp": ns_uri})]: the descendants of [root],
    [root] apart, whose tag is [t] in the namespace. *)
Definition findall_t (root : element) (ns_uri : pystr) : list element :=
  filter (fun e => str_eqb (tag_of e) (lit "{" ++ ns_uri ++ lit "}t"))
         (flat_map iter (children_of root)).

(** The texts appended for a list of elements: those that are not empty. *)
Definition element_texts (elements : list element) : list pystr :=
  flat_map (fun e => match text_of e with
                     | Some (c :: t) => [c :: t]
                     | _ => []
                     end) elements.

(** The [for ns_uri in known_namespaces] loop: [Some texts] when a
    namespace had elements ([found]), [None] otherwise. *)
Fixpoint namespace_search (root : element) (namespaces : list pystr)
  : option (list pystr) :=
  match namespaces with
  | [] => None
  | ns_uri :: rest =>
      let elements := findall_t root ns_uri in
      if nonempty elements then Some (element_texts elements)
      else namespace_search root rest
  end.

(** [tag.split("}")[-1] if "}" in tag else tag] *)
Definition local_name (tag : pystr) : pystr :=
  if existsb (Z.eqb 125) tag then rev (take_until 125 (rev tag)) else tag.

(** The fallback: every element, [root] included, whose local name is
    [t]. *)
Definition fallback_texts (root : element) : list pystr :=
  element_texts
    (filter (fun e => str_eqb (local_name (tag_of e)) (lit "t")) (iter root)).

Definition _extract_text_from_hwpx_xml (fromstring : bytes -> parsed)
  (xml_data : bytes) : outcome pystr :=
  match fromstring xml_data with
  | ParseError => Return []
  | Failed e => Raise e
  | Parsed root =>
      match namespace_search root known_namespaces with
      | Some texts => Return (join [10] texts)
      | None => Return (join [10] (fallback_texts root))
      end
  end.

(** A small document: two paragraphs in the 2011 namespace and a table cell
    in a namespace of 2024. *)
Definition example_root (ns : pystr) : element :=
  Element (lit "{http://www.hancom.co.kr/hwpml/2011/section}sec") None
    [ Element (lit "{" ++ ns ++ lit "}p") None
        [ Element (lit "{" ++ ns ++ lit "}t") (Some (lit "first")) [] ];
      Element (lit "{" ++ ns ++ lit "}p") None
        [ Element (lit "{" ++ ns ++ lit "}t") None [];
          Element (lit "{" ++ ns ++ lit "}t") (Some (lit "second")) [] ] ].

End HwpxXml.

(** ** The libraries and the file system *)

(** The parts of the Python runtime and of the third-party libraries whose
    results depend on the platform, on Unicode tables or on a codec.
    [os_path_splitext] is [os.path.splitext]; [str_lower] is [str.lower];
    [unicode_decimal c] is the value of [c] when [c] is a decimal digit
    (what [\d] matches and [int] reads); [re_ignorecase_eq p c] tells whether
    the pattern character [p] matches [c] under [re.IGNORECASE];
    [zlib_decompress] is [zlib.decompress(data, -15)], [None] for
    [zlib.error]; [set_iter] is the iteration order of the set
    [SUPPORTED_EXTENSIONS]; [ET_fromstring] is [ET.fromstring], which gives
    a tree, raises [ET.ParseError] or raises another exception (an unknown
    encoding is a [LookupError]). *)
Record runtime : Type := {
  os_path_splitext : pystr -> pystr * pystr;
  str_lower : pystr -> pystr;
  unicode_decimal : Z -> option Z;
  re_ignorecase_eq : Z -> Z -> bool;
  zlib_decompress : bytes -> option bytes;
  set_iter : list pystr -> list pystr;
  ET_fromstring : bytes -> HwpxXml.parsed
}.

(** An open OLE container ([olefile.OleFileIO]). *)
Record ole_file : Type := {
  ole_exists : pystr -> bool;
  ole_listdir : list (list pystr);
  ole_openstream_read : list pystr -> result bytes
}.

(** An open ZIP archive ([zipfile.ZipFile]). *)
Record zip_file : Type := {
  zf_namelist : list pystr;
  zf_read : pystr -> result bytes
}.

(** An open PDF ([pdfplumber.open]): per page, what [extract_text()]
    gives ([None] included). *)
Record pdf_file : Type := {
  pdf_pages : list (result (option pystr))
}.

(** The file system as one call of [parse] sees it. *)
Record world : Type := {
  os_path_exists : pystr -> bool;
  isOleFile : pystr -> result bool;
  OleFileIO : pystr -> result ole_file;
  ZipFile : pystr -> result zip_file;
  pdfplumber_open : pystr -> result pdf_file
}.

(** ** Messages *)

(** "[파싱 오류]" *)
Definition TAG_PARSE_ERROR : pystr := [91; 54028; 49905; 32; 50724; 47448; 93].

(** "[수동 확인 필요]" *)
Definition TAG_MANUAL_CHECK : pystr :=
  [91; 49688; 46041; 32; 54869; 51064; 32; 54596; 50836; 93].

(** "파일을 찾을 수 없습니다: " *)
Definition MSG_NOT_FOUND : pystr :=
  [54028; 51068; 51012; 32; 52286; 51012; 32; 49688; 32; 50630; 49845; 45768;
   45796; 58; 32].

(** "지원하지 않는 파일 형식입니다: " and " (지원: " *)
Definition MSG_UNSUPPORTED : pystr :=
  [51648; 50896; 54616; 51648; 32; 50506; 45716; 32; 54028; 51068; 32; 54805;
   49885; 51077; 45768; 45796; 58; 32].
Definition MSG_UNSUPPORTED_LIST : pystr := [32; 40; 51648; 50896; 58; 32].

(** "파일 파싱 중 오류 발생 (" *)
Definition MSG_PARSE_FAILED : pystr :=
  [54028; 51068; 32; 54028; 49905; 32; 51473; 32; 50724; 47448; 32; 48156;
   49373; 32; 40].

(** " 유효하지 않은 HWP 파일입니다." *)
Definition MSG_INVALID_HWP : pystr :=
  TAG_PARSE_ERROR ++
  [32; 50976; 54952; 54616; 51648; 32; 50506; 51008; 32; 72; 87; 80; 32;
   54028; 51068; 51077; 45768; 45796; 46].

(** " HWP 파일에 BodyText가 없습니다." *)
Definition MSG_NO_BODYTEXT : pystr :=
  TAG_PARSE_ERROR ++
  [32; 72; 87; 80; 32; 54028; 51068; 50640; 32; 66; 111; 100; 121; 84; 101;
   120; 116; 44032; 32; 50630; 49845; 45768; 45796; 46].

(** " HWPX 파일에 본문 섹션이 없습니다." *)
Definition MSG_NO_SECTION : pystr :=
  TAG_PARSE_ERROR ++
  [32; 72; 87; 80; 88; 32; 54028; 51068; 50640; 32; 48376; 47928; 32; 49465;
   49496; 51060; 32; 50630; 49845; 45768; 45796; 46].

(** " 유효하지 않은 HWPX 파일입니다." *)
Definition MSG_INVALID_HWPX : pystr :=
  TAG_PARSE_ERROR ++
  [32; 50976; 54952; 54616; 51648; 32; 50506; 51008; 32; 72; 87; 80; 88; 32;
   54028; 51068; 51077; 45768; 45796; 46].

(** " PDF 파일을 열 수 없습니다: " *)
Definition MSG_PDF_OPEN : pystr :=
  TAG_PARSE_ERROR ++
  [32; 80; 68; 70; 32; 54028; 51068; 51012; 32; 50676; 32; 49688; 32; 50630;
   49845; 45768; 45796; 58; 32].

(** " 이 PDF는 이미지 기반 문서입니다. 텍스트를 추출할 수 없습니다." *)
Definition MSG_MANUAL_CHECK : pystr :=
  TAG_MANUAL_CHECK ++
  [32; 51060; 32; 80; 68; 70; 45716; 32; 51060; 48120; 51648; 32; 44592;
   48152; 32; 47928; 49436; 51077; 45768; 45796; 46; 32; 53581; 49828; 53944;
   47484; 32; 52628; 52636; 54624; 32; 49688; 32; 50630; 49845; 45768; 45796;
   46].

(** ** [FileParser._parse_pdf] *)

(** The [for i, page in enumerate(pdf.pages)] loop. *)
Fixpoint pdf_pages_loop (pages : list (result (option pystr)))
  (extracted_texts : list pystr) : outcome (list pystr) :=
  match pages with
  | [] => Return extracted_texts
  | page :: pages' =>
      page_text <- call page ;;
      match page_text with
      | Some (c :: t) => pdf_pages_loop pages' (extracted_texts ++ [c :: t])
      | _ => pdf_pages_loop pages' extracted_texts
      end
  end.

Definition _parse_pdf (W : world) (file_path : pystr) : outcome pystr :=
  match (pdf <- call (pdfplumber_open W file_path) ;;
         pdf_pages_loop (pdf_pages pdf) []) with
  | Raise e => Return (MSG_PDF_OPEN ++ str_of_exn e)
  | OutOfFuel => OutOfFuel
  | Return [] => Return MSG_MANUAL_CHECK
  | Return extracted_texts => Return (join [10] extracted_texts)
  end.

(** ** Sorting *)

(** Python's order on [str]: code point by code point, a proper prefix
    first. *)
Fixpoint str_leb (a b : pystr) : bool :=
  match a, b with
  | [], _ => true
  | _ :: _, [] => false
  | x :: a', y :: b' =>
      if x <? y then true else if y <? x then false else str_leb a' b'
  end.

(** A stable sort: [x], which stood before every element of [l], goes before
    the first element that is not below it. *)
Fixpoint insert_by {A : Type} (leb : A -> A -> bool) (x : A) (l : list A)
  : list A :=
  match l with
  | [] => [x]
  | y :: l' => if leb x y then x :: l else y :: insert_by leb x l'
  end.

Definition sort_by {A : Type} (leb : A -> A -> bool) (l : list A) : list A :=
  fold_right (insert_by leb) [] l.

(** [sorted(l)] on a list of [str]. *)
Definition sorted (l : list pystr) : list pystr := sort_by str_leb l.

(** [l.sort(key=key)] with integer keys. *)
Definition sort_key {A : Type} (key : A -> Z) (l : list A) : list A :=
  sort_by (fun a b => key a <=? key b) l.

(** ** Regular expressions of the module *)

Definition is_decimal (L : runtime) (c : Z) : bool :=
  match unicode_decimal L c with Some _ => true | None => false end.

(** A literal pattern matched at the start of [s] under [re.IGNORECASE];
    the result is what is left of [s]. *)
Fixpoint match_literal_ci (L : runtime) (pat s : pystr) : option pystr :=
  match pat, s with
  | [], _ => Some s
  | _ :: _, [] => None
  | p :: pat', c :: s' =>
      if re_ignorecase_eq L p c then match_literal_ci L pat' s' else None
  end.

(** [\d+] followed by the continuation [k], at the start of [s]. *)
Fixpoint match_digits_then (L : runtime) (k : pystr -> bool) (s : pystr)
  : bool :=
  match s with
  | c :: r => is_decimal L c && (match_digits_then L k r || k r)
  | [] => false
  end.

(** [re.match(r'Contents/section\d+\.xml', f, re.IGNORECASE)] as a truth
    value: the pattern is anchored at the start only. *)
Definition re_match_section_xml (L : runtime) (f : pystr) : bool :=
  match match_literal_ci L (lit "Contents/section") f with
  | Some rest =>
      match_digits_then L
        (fun r => match match_literal_ci L (lit ".xml") r with
                  | Some _ => true
                  | None => false
                  end) rest
  | None => false
  end.

(** [$] without [re.MULTILINE]: the end of the string, or just before a
    newline that ends it. *)
Definition at_end (s : pystr) : bool :=
  match s with
  | [] => true
  | [c] => c =? 10
  | _ => false
  end.

(** [(\d+)$] at the start of [s], greedy; the result is group 1. *)
Fixpoint match_digits_end (L : runtime) (s : pystr) : option pystr :=
  match s with
  | c :: r =>
      if is_decimal L c then
        match match_digits_end L r with
        | Some d => Some (c :: d)
        | None => if at_end r then Some [c] else None
        end
      else None
  | [] => None
  end.

(** [re.search(r'(\d+)$', s)]: the leftmost match, [group(1)]. *)
Fixpoint re_search_digits_end (L : runtime) (s : pystr) : option pystr :=
  match match_digits_end L s with
  | Some d => Some d
  | None =>
      match s with
      | _ :: r => re_search_digits_end L r
      | [] => None
      end
  end.

(** [int(d)] on a string of decimal digits. *)
Definition int_of_digits (L : runtime) (d : pystr) : Z :=
  fold_left (fun acc c => 10 * acc + match unicode_decimal L c with
                                      | Some v => v
                                      | None => 0
                                      end) d 0.

(** ** [FileParser._parse_hwpx] *)

(** The test of the fallback search: an XML entry under [Contents/]. *)
Definition is_fallback_entry (f : pystr) : bool :=
  startswith (lit "Contents/") f && endswith (lit ".xml") f.

(** The section entries of an archive: the canonical names, or else every
    XML entry under [Contents/]. *)
Definition hwpx_section_files (L : runtime) (file_list : list pystr)
  : list pystr :=
  let section_files := sorted (filter (re_match_section_xml L) file_list) in
  if negb (nonempty section_files) then
    sorted (filter is_fallback_entry file_list)
  else section_files.

(** The [for section_file in section_files] loop. *)
Fixpoint hwpx_sections_loop (L : runtime) (zf : zip_file)
  (section_files : list pystr) (extracted_texts : list pystr)
  : outcome (list pystr) :=
  match section_files with
  | [] => Return extracted_texts
  | section_file :: rest =>
      xml_data <- call (zf_read zf section_file) ;;
      section_text <-
        HwpxXml._extract_text_from_hwpx_xml (ET_fromstring L) xml_data ;;
      hwpx_sections_loop L zf rest
        (if truthy section_text then extracted_texts ++ [section_text]
         else extracted_texts)
  end.

(** The body of the [try]: [inl] is the early [return] of the sentinel,
    [inr] the texts the loop collected. *)
Definition hwpx_try (L : runtime) (W : world) (file_path : pystr)
  : outcome (pystr + list pystr) :=
  zf <- call (ZipFile W file_path) ;;
  let file_list := zf_namelist zf in
  let section_files := hwpx_section_files L file_list in
  if negb (nonempty section_files) then Return (inl MSG_NO_SECTION)
  else
    extracted_texts <- hwpx_sections_loop L zf section_files [] ;;
    Return (inr extracted_texts).

Definition _parse_hwpx (L : runtime) (W : world) (file_path : pystr)
  : outcome pystr :=
  match hwpx_try L W file_path with
  | Return (inl sentinel) => Return sentinel
  | Return (inr extracted_texts) => Return (join [10] extracted_texts)
  | Raise (BadZipFile _) => Return MSG_INVALID_HWPX
  | Raise e => Raise e
  | OutOfFuel => OutOfFuel
  end.

(** ** [FileParser._parse_hwp] *)

(** The sort key of a stream path: the number that ends its last
    component, [0] without one. *)
Definition section_key (L : runtime) (x : list pystr) : Z :=
  match re_search_digits_end L (last x []) with
  | Some d => int_of_digits L d
  | None => 0
  end.

(** The body section streams of a container, in processing order. *)
Definition hwp_section_streams (L : runtime) (listdir : list (list pystr))
  : list (list pystr) :=
  sort_key (section_key L)
    (filter (fun stream_path =>
               startswith (lit "BodyText/Section") (join (lit "/") stream_path))
            listdir).

(** The [for stream_path in section_streams] loop. *)
Fixpoint hwp_sections_loop (L : runtime) (ole : ole_file)
  (is_compressed : bool) (section_streams : list (list pystr))
  (extracted_texts : list pystr) : outcome (list pystr) :=
  match section_streams with
  | [] => Return extracted_texts
  | stream_path :: rest =>
      raw_data <- call (ole_openstream_read ole stream_path) ;;
      match (if is_compressed then zlib_decompress L raw_data
             else Some raw_data) with
      | None => hwp_sections_loop L ole is_compressed rest extracted_texts
      | Some raw_data =>
          section_text <- _extract_text_from_hwp_records raw_data ;;
          hwp_sections_loop L ole is_compressed rest
            (if truthy section_text then extracted_texts ++ [section_text]
             else extracted_texts)
      end
  end.

Definition _parse_hwp (L : runtime) (W : world) (file_path : pystr)
  : outcome pystr :=
  is_ole <- call (isOleFile W file_path) ;;
  if negb is_ole then Return MSG_INVALID_HWP
  else
    ole <- call (OleFileIO W file_path) ;;
    is_compressed <-
      (if ole_exists ole (lit "FileHeader") then
         header_data <- call (ole_openstream_read ole [lit "FileHeader"]) ;;
         Return (if len header_data >? 36 then
                   negb (Z.land (byte_val (nth 36 header_data x00)) 0x01 =? 0)
                 else false)
       else Return false) ;;
    let section_streams := hwp_section_streams L (ole_listdir ole) in
    if negb (nonempty section_streams) then Return MSG_NO_BODYTEXT
    else
      extracted_texts <-
        hwp_sections_loop L ole is_compressed section_streams [] ;;
      Return (join [10] extracted_texts).

(** ** [FileParser.parse] *)

Definition SUPPORTED_EXTENSIONS : list pystr :=
  [lit ".hwp"; lit ".hwpx"; lit ".pdf"].

(** The extractor the dispatcher selects for a lower-cased extension. *)
Definition dispatch (L : runtime) (W : world) (ext file_path : pystr)
  : outcome pystr :=
  if str_eqb ext (lit ".hwp") then _parse_hwp L W file_path
  else if str_eqb ext (lit ".hwpx") then _parse_hwpx L W file_path
  else if str_eqb ext (lit ".pdf") then _parse_pdf W file_path
  else Return [].

Definition parse (L : runtime) (W : world) (file_path : pystr)
  : outcome pystr :=
  if negb (os_path_exists W file_path) then
    Raise (FileNotFoundError (MSG_NOT_FOUND ++ file_path))
  else
    let ext := str_lower L (snd (os_path_splitext L file_path)) in
    if negb (existsb (str_eqb ext) SUPPORTED_EXTENSIONS) then
      Raise (ValueError
               (MSG_UNSUPPORTED ++ ext ++ MSG_UNSUPPORTED_LIST
                ++ join (lit ", ") (set_iter L SUPPORTED_EXTENSIONS)
                ++ lit ")"))
    else
      match dispatch L W ext file_path with
      | Return text => Return (_clean_text text)
      | Raise e =>
          Return (TAG_PARSE_ERROR ++ lit " " ++ MSG_PARSE_FAILED ++ ext
                  ++ lit "): " ++ str_of_exn e)
      | OutOfFuel => OutOfFuel
      end.

(** ** A concrete runtime *)

(** [posixpath.splitext]: the extension starts at the last dot of the last
    path component, leading dots of the component apart. *)
Fixpoint drop_dots (s : pystr) : pystr :=
  match s with
  | c :: s' => if c =? 46 then drop_dots s' else s
  | [] => []
  end.

Definition posix_splitext (p : pystr) : pystr * pystr :=
  let basename := rev (take_until 47 (rev p)) in
  let name := drop_dots basename in
  if existsb (Z.eqb 46) name then
    let ext := 46 :: rev (take_until 46 (rev name)) in
    (firstn (List.length p - List.length ext) p, ext)
  else (p, []).

Definition ascii_lower_char (c : Z) : Z :=
  if (65 <=? c) && (c <=? 90) then c + 32 else c.

Definition ascii_decimal (c : Z) : option Z :=
  if (48 <=? c) && (c <=? 57) then Some (c - 48) else None.

(** [re.IGNORECASE] on an ASCII literal [p] of a pattern: the character has
    the lower case of [p], or is one of the letters Python matches with [i]
    (U+0130, U+0131), [s] (U+017F) and [k] (U+212A). *)
Definition ascii_ignorecase_eq (p c : Z) : bool :=
  (ascii_lower_char p =? ascii_lower_char c)
  || ((ascii_lower_char p =? 105) && ((c =? 0x130) || (c =? 0x131)))
  || ((ascii_lower_char p =? 115) && (c =? 0x17F))
  || ((ascii_lower_char p =? 107) && (c =? 0x212A)).

(** An octet string written as an ASCII literal. *)
Definition bytes_of (s : string) : bytes :=
  map byte_of_ascii (list_ascii_of_string s).

Fixpoint bytes_eqb (a b : bytes) : bool :=
  match a, b with
  | [], [] => true
  | x :: a', y :: b' => Byte.eqb x y && bytes_eqb a' b'
  | _, _ => false
  end.

(** The section XML of the examples: one [t] element of the 2011 paragraph
    namespace under a root without namespace, and the tree [ET.fromstring]
    gives for it. *)
Definition example_section_xml (text : string) : bytes :=
  bytes_of ("<s xmlns:hp='http://www.hancom.co.kr/hwpml/2011/paragraph'><hp:t>"
            ++ text ++ "</hp:t></s>")%string.

Definition example_section_tree (text : string) : HwpxXml.element :=
  HwpxXml.Element (lit "s") None
    [ HwpxXml.Element (lit "{http://www.hancom.co.kr/hwpml/2011/paragraph}t")
        (Some (lit text)) [] ].

(** A document that declares an encoding Python does not know:
    [ET.fromstring] raises [LookupError] on it. *)
Definition example_unknown_encoding_xml : bytes :=
  bytes_of "<?xml version='1.0' encoding='nope'?><a/>".

(** [ET.fromstring] on the octet strings of the examples: the three section
    documents, the document with the unknown encoding, and octet strings that
    are no XML (the empty string and plain words), which are a
    [ParseError]. *)
Definition example_fromstring (xml_data : bytes) : HwpxXml.parsed :=
  if bytes_eqb xml_data (example_section_xml "nine") then
    HwpxXml.Parsed (example_section_tree "nine")
  else if bytes_eqb xml_data (example_section_xml "ten") then
    HwpxXml.Parsed (example_section_tree "ten")
  else if bytes_eqb xml_data (example_section_xml "body") then
    HwpxXml.Parsed (example_section_tree "body")
  else if bytes_eqb xml_data example_unknown_encoding_xml then
    HwpxXml.Failed (Exception (lit "unknown encoding: nope"))
  else HwpxXml.ParseError.

(** A runtime for evaluating the definitions on the examples: POSIX paths,
    the ASCII part of the Unicode tables for [str.lower] and the decimal
    digits (the paths, stream names and entry names of the examples are
    ASCII, and on other names this runtime is not Python's), [ET.fromstring]
    on the documents of the examples, and no stream inflates.  The statements
    about every runtime do not depend on it. *)
Definition ascii_runtime : runtime := {|
  os_path_splitext := posix_splitext;
  str_lower := map ascii_lower_char;
  unicode_decimal := ascii_decimal;
  re_ignorecase_eq := ascii_ignorecase_eq;
  zlib_decompress := fun _ => None;
  set_iter := fun l => l;
  ET_fromstring := example_fromstring
|}.

(** ** The properties, in the words of the specification *)

(** What one code unit contributes to the decoded text: the paragraph break
    a newline, any other control code nothing, any other unit its
    character. *)
Definition spec_decode_unit (code : Z) : pystr :=
  if code =? 0x000D then [10]
  else if code <=? 0x001F then []
  else [code].

Definition spec_decode (data : bytes) : pystr :=
  flat_map spec_decode_unit (code_units data).

(** The header word the serializer packs for the size field [s]. *)
Definition built_header (tag_id level s : Z) : Z :=
  Z.lor (Z.lor (Z.land tag_id 0x3FF) (Z.shiftl (Z.land level 0x3FF) 10))
        (Z.shiftl s 20).

(** A record of a section stream. *)
Record hwp_record : Type := {
  rec_tag_id : Z;
  rec_level : Z;
  rec_data : bytes
}.

Definition build (r : hwp_record) : bytes :=
  _build_hwp_record (rec_tag_id r) (rec_data r) (rec_level r).

(** A stream made of whole records. *)
Definition serialize (rs : list hwp_record) : bytes := List.concat (map build rs).



(** [text] occurs in [result]. *)
Definition occurs_in (text result : pystr) : Prop :=
  exists pre post, result = pre ++ text ++ post.

(** A page without text: [extract_text()] gave [None] or the empty
    string. *)
Definition page_is_empty (t : option pystr) : bool :=
  match t with
  | Some (_ :: _) => false
  | _ => true
  end.

(** The page texts that are not empty, in page order. *)
Definition nonempty_page_texts (texts : list (option pystr)) : list pystr :=
  flat_map (fun t => match t with
                     | Some (c :: s) => [c :: s]
                     | _ => []
                     end) texts.

(** A string of the Basic Multilingual Plane without control codes and
    without surrogates. *)
Definition bmp_text_char (c : Z) : bool :=
  (0x1F <? c) && (c <? 0x10000) && negb ((0xD800 <=? c) && (c <=? 0xDFFF)).

(** A run that ends: it returns or raises. *)
Definition finishes {A : Type} (m : outcome A) : Prop :=
  match m with
  | OutOfFuel => False
  | _ => True
  end.

(** ** Example inputs *)

Definition example_records : list hwp_record :=
  [ {| rec_tag_id := 67; rec_level := 0; rec_data := [x41; x00] |};
    {| rec_tag_id := 10; rec_level := 1; rec_data := [x42; x00] |};
    {| rec_tag_id := 67; rec_level := 0; rec_data := [x20; x00] |};
    {| rec_tag_id := 67; rec_level := 2; rec_data := [x43; x00; x0d; x00] |} ].

(** An archive with the sections 9 and 10, and one without canonical
    section names. *)
Definition example_archive (names : list pystr) : zip_file := {|
  zf_namelist := names;
  zf_read := fun f =>
    if str_eqb f (lit "Contents/section9.xml")
    then Ok (example_section_xml "nine")
    else if str_eqb f (lit "Contents/section10.xml")
    then Ok (example_section_xml "ten")
    else if str_eqb f (lit "Contents/body.xml")
    then Ok (example_section_xml "body")
    else Ok []
|}.

Definition example_ole : ole_file := {|
  ole_exists := fun _ => false;
  ole_listdir := [[lit "BodyText"; lit "Section10"]; [lit "FileHeader"];
                  [lit "BodyText"; lit "Section9"]];
  ole_openstream_read := fun stream_path =>
    if str_eqb (last stream_path []) (lit "Section9")
    then Ok (_build_hwp_record 67 [x39; x00] 0)
    else Ok (_build_hwp_record 67 [x31; x00; x30; x00] 0)
|}.

(** A file system with a few documents. *)
Definition example_world : world := {|
  os_path_exists := fun p =>
    existsb (str_eqb p)
      [lit "/data/scan.pdf"; lit "/data/text.pdf"; lit "/data/broken.pdf";
       lit "/data/long.hwpx"; lit "/data/other.hwpx"; lit "/data/empty.hwpx";
       lit "/data/doc.hwp"; lit "/data/locked.hwp"; lit "/data/notes.docx"];
  isOleFile := fun p =>
    if str_eqb p (lit "/data/locked.hwp")
    then Err (Exception (lit "Permission denied"))
    else Ok (str_eqb p (lit "/data/doc.hwp"));
  OleFileIO := fun p =>
    if str_eqb p (lit "/data/doc.hwp") then Ok example_ole
    else Err (Exception (lit "not an OLE2 structured storage file"));
  ZipFile := fun p =>
    if str_eqb p (lit "/data/long.hwpx") then
      Ok (example_archive [lit "Contents/section9.xml";
                           lit "Contents/section10.xml"])
    else if str_eqb p (lit "/data/other.hwpx") then
      Ok (example_archive [lit "mimetype"; lit "Contents/body.xml"])
    else if str_eqb p (lit "/data/empty.hwpx") then
      Ok (example_archive [lit "mimetype"])
    else Err (BadZipFile (lit "File is not a zip file"));
  pdfplumber_open := fun p =>
    if str_eqb p (lit "/data/scan.pdf") then
      Ok {| pdf_pages := [Ok None; Ok (Some [])] |}
    else if str_eqb p (lit "/data/text.pdf") then
      Ok {| pdf_pages := [Ok (Some (lit "one")); Ok (Some []);
                          Ok (Some (lit "three"))] |}
    else Err (Exception (lit "No /Root object"))
|}.

(** ** Helpers for the statements on the legacy container *)






(** ** Helpers for the statements on the normalizer *)

(** A text without white space at its ends: [strip] leaves it as it is. *)
Definition stripped (s : pystr) : Prop := strip s = s.

(** A text that does not start with white space. *)
Definition starts_clean (s : pystr) : Prop :=
  match s with
  | c :: _ => isspace c = false
  | [] => True
  end.

(** ** [FileParser.get_file_info] *)

(** The dictionary the method returns. *)
Record file_info : Type := {
  file_name : pystr;
  extension : pystr;
  size_bytes : Z;
  info_exists : bool;
  supported : bool
}.

(** [os_path_basename] is [os.path.basename] and [os_path_getsize] is
    [os.path.getsize], which raises on a path it cannot stat. *)
Definition get_file_info (L : runtime) (W : world)
  (os_path_basename : pystr -> pystr) (os_path_getsize : pystr -> result Z)
  (file_path : pystr) : outcome file_info :=
  let exists_ := os_path_exists W file_path in
  let ext := snd (os_path_splitext L file_path) in
  size <- (if exists_ then call (os_path_getsize file_path) else Return 0) ;;
  Return {| file_name := os_path_basename file_path;
            extension := str_lower L ext;
            size_bytes := size;
            info_exists := exists_;
            supported := existsb (str_eqb (str_lower L ext))
                                 SUPPORTED_EXTENSIONS |}.

(** ** More example inputs *)

(** An archive whose second section is damaged. *)
Definition example_damaged_archive : zip_file := {|
  zf_namelist := [lit "Contents/section0.xml"; lit "Contents/section1.xml"];
  zf_read := fun f =>
    if str_eqb f (lit "Contents/section0.xml") then Ok [x7a; x65; x72; x6f]
    else Err (BadZipFile (lit "Bad CRC-32 for file"))
|}.

(** A container with a file header and no body section. *)
Definition example_empty_ole : ole_file := {|
  ole_exists := fun name => str_eqb name (lit "FileHeader");
  ole_listdir := [[lit "FileHeader"]; [lit "DocInfo"]];
  ole_openstream_read := fun _ => Ok (repeat x00 40)
|}.

(** A file system with damaged documents. *)
Definition example_world2 : world := {|
  os_path_exists := fun p =>
    existsb (str_eqb p)
      [lit "/data/fake.hwp"; lit "/data/nobody.hwp"; lit "/data/fake.hwpx";
       lit "/data/damaged.hwpx"; lit "/data/fake.pdf";
       lit "/data/halfscan.pdf"; lit "/data/report.pdf"];
  isOleFile := fun p => Ok (str_eqb p (lit "/data/nobody.hwp"));
  OleFileIO := fun p =>
    if str_eqb p (lit "/data/nobody.hwp") then Ok example_empty_ole
    else Err (Exception (lit "not an OLE2 structured storage file"));
  ZipFile := fun p =>
    if str_eqb p (lit "/data/damaged.hwpx") then Ok example_damaged_archive
    else Err (BadZipFile (lit "File is not a zip file"));
  pdfplumber_open := fun p =>
    if str_eqb p (lit "/data/halfscan.pdf") then
      Ok {| pdf_pages := [Ok (Some (lit "one"));
                          Err (Exception (lit "bad page"));
                          Ok (Some (lit "three"))] |}
    else if str_eqb p (lit "/data/report.pdf") then
      Ok {| pdf_pages := [Ok (Some ([32; 32] ++ lit "report" ++ [32; 10; 10;
                                     10; 10; 32] ++ lit "body" ++ [32]))] |}
    else Err (Exception (lit "No /Root object"))
|}.

(** Records with a short payload, with a payload behind the escape size,
    and one to be cut. *)
Definition example_short_record : hwp_record :=
  {| rec_tag_id := 67; rec_level := 1; rec_data := [x41; x00] |}.

Definition example_long_record : hwp_record :=
  {| rec_tag_id := 67; rec_level := 0; rec_data := repeat x20 4096 |}.


(** [posixpath.basename] *)
Definition posix_basename (p : pystr) : pystr := rev (take_until 47 (rev p)).

(** A namespace the extractor does not know. *)
Definition example_namespace : pystr :=
  lit "http://www.hancom.co.kr/hwpml/2024/paragraph".

(** ** Streams of whole records *)

(** A record as it stands in a section stream: its header word and its
    payload.  It is whole when the size field of the header is the payload
    length, or is the escape value [0xFFF], in which case the payload length
    follows the header word as a 32-bit integer. *)
Record stream_record : Type := {
  sr_header : Z;
  sr_data : bytes
}.

Definition whole_record (r : stream_record) : Prop :=
  0 <= sr_header r < 2 ^ 32 /\
  len (sr_data r) < 2 ^ 32 /\
  (header_size (sr_header r) = 0xFFF
   \/ header_size (sr_header r) = len (sr_data r)).

Definition record_bytes (r : stream_record) : bytes :=
  pack_I (sr_header r)
  ++ (if header_size (sr_header r) =? 0xFFF then pack_I (len (sr_data r))
      else [])
  ++ sr_data r.

Definition record_stream (rs : list stream_record) : bytes :=
  List.concat (map record_bytes rs).

(** A stream of four records: "A" with a plain size, "Z" behind the escape
    size, a record of another kind, and a text record that holds one space. *)
Definition example_stream_records : list stream_record :=
  [ {| sr_header := 0x00200043; sr_data := [x41; x00] |};
    {| sr_header := 0xFFF00043; sr_data := [x5a; x00] |};
    {| sr_header := 0x0020000A; sr_data := [x42; x00] |};
    {| sr_header := 0x00200043; sr_data := [x20; x00] |} ].

(** An archive whose only entry declares an unknown encoding, and a file
    system where every path is that archive. *)
Definition example_unknown_encoding_archive : zip_file := {|
  zf_namelist := [lit "mimetype"; lit "Contents/content.xml"];
  zf_read := fun _ => Ok example_unknown_encoding_xml
|}.

Definition example_world3 : world := {|
  os_path_exists := fun _ => true;
  isOleFile := fun _ => Ok false;
  OleFileIO := fun _ => Err (Exception (lit "not an OLE2 structured storage file"));
  ZipFile := fun _ => Ok example_unknown_encoding_archive;
  pdfplumber_open := fun _ => Err (Exception (lit "No /Root object"))
|}.

(** * Proofs *)

(** ** Octets and little-endian words *)

Lemma byte_val_range (b : byte) : 0 <= byte_val b < 256.
Proof.
  unfold byte_val. pose proof (Byte.to_N_bounded b) as H.
  split; [apply N2Z.is_nonneg|]. lia.
Qed.

Lemma byte_val_of_Z (z : Z) : byte_val (byte_of_Z z) = z mod 256.
Proof.
  unfold byte_val, byte_of_Z.
  assert (Hr : 0 <= z mod 256 < 256) by (apply Z.mod_pos_bound; lia).
  destruct (Byte.of_N (Z.to_N (z mod 256))) as [b|] eqn:E.
  - apply Byte.to_of_N in E. rewrite E. rewrite Z2N.id; lia.
  - apply Byte.of_N_None_iff in E. lia.
Qed.

Lemma len_nonneg {A : Type} (l : list A) : 0 <= len l.
Proof. unfold len. lia. Qed.

Lemma len_app {A : Type} (l1 l2 : list A) : len (l1 ++ l2) = len l1 + len l2.
Proof. unfold len. rewrite length_app. lia. Qed.

Lemma skipn_Z_add {A : Type} (i k : Z) (l : list A) :
  0 <= i -> 0 <= k ->
  skipn (Z.to_nat (i + k)) l = skipn (Z.to_nat k) (skipn (Z.to_nat i) l).
Proof.
  intros Hi Hk. rewrite Z2Nat.inj_add by lia.
  rewrite Nat.add_comm. rewrite skipn_skipn. reflexivity.
Qed.

(** ** The text decoder *)

Lemma le16_range (b0 b1 : byte) : 0 <= le16 b0 b1 < 65536.
Proof.
  unfold le16.
  pose proof (byte_val_range b0). pose proof (byte_val_range b1). lia.
Qed.

Lemma le32_range (b0 b1 b2 b3 : byte) : 0 <= le32 b0 b1 b2 b3 < 2 ^ 32.
Proof.
  unfold le32.
  pose proof (byte_val_range b0). pose proof (byte_val_range b1).
  pose proof (byte_val_range b2). pose proof (byte_val_range b3).
  change (2 ^ 32) with 4294967296. lia.
Qed.

(** The loop from cursor [i], with [rest] the octets from [i] on, appends
    the decoding of [rest]. *)
Lemma decode_loop_spec (fuel : nat) :
  forall (data rest : bytes) (i : Z) (result : pystr),
    0 <= i ->
    skipn (Z.to_nat i) data = rest ->
    i + len rest = len data ->
    (List.length rest < fuel)%nat ->
    decode_loop fuel data i result = Return (result ++ spec_decode rest).
Proof.
  induction fuel as [|fuel IH]; intros data rest i result Hi Hskip Hlen Hfuel.
  - lia.
  - cbn [decode_loop].
    destruct rest as [|b0 [|b1 rest']].
    + unfold len in Hlen at 1. simpl in Hlen.
      replace (i <? len data - 1) with false by (symmetry; apply Z.ltb_ge; lia).
      unfold spec_decode. simpl. rewrite app_nil_r. reflexivity.
    + unfold len in Hlen at 1. simpl in Hlen.
      replace (i <? len data - 1) with false by (symmetry; apply Z.ltb_ge; lia).
      unfold spec_decode. simpl. rewrite app_nil_r. reflexivity.
    + assert (Hlen' : i + 2 + len rest' = len data).
      { unfold len in *. simpl in Hlen. lia. }
      pose proof (len_nonneg rest') as Hnn.
      replace (i <? len data - 1) with true by (symmetry; apply Z.ltb_lt; lia).
      unfold unpack_from_H. rewrite Hskip. cbn [bind].
      assert (Hskip' : skipn (Z.to_nat (i + 2)) data = rest').
      { rewrite skipn_Z_add by lia. rewrite Hskip. reflexivity. }
      assert (Hfuel' : (List.length rest' < fuel)%nat) by (simpl in Hfuel; lia).
      pose proof (le16_range b0 b1) as Hcode.
      set (code := le16 b0 b1) in *.
      unfold spec_decode. cbn [code_units flat_map]. fold code.
      fold (spec_decode rest'). unfold spec_decode_unit.
      destruct (code =? 13) eqn:E13.
      * rewrite (IH data rest' (i + 2) (result ++ [10])) by (assumption || lia).
        rewrite <- app_assoc. reflexivity.
      * destruct (code <=? 31) eqn:E31.
        -- destruct (existsb (Z.eqb code) extended_controls);
             rewrite (IH data rest' (i + 2) result) by (assumption || lia);
             reflexivity.
        -- unfold chr.
           replace ((0 <=? code) && (code <=? 1114111)) with true
             by (symmetry; apply andb_true_iff; split; apply Z.leb_le; lia).
           rewrite (IH data rest' (i + 2) (result ++ [code])) by (assumption || lia).
           rewrite <- app_assoc. reflexivity.
Qed.

Lemma decode_hwp_text_eq (data : bytes) :
  _decode_hwp_text data = Return (spec_decode data).
Proof.
  unfold _decode_hwp_text.
  rewrite (decode_loop_spec (S (List.length data)) data data 0 []);
    try reflexivity; try lia.
Qed.

(** C6: the decoded text of a payload is what its two-octet little-endian
    code units give, one after the other: the unit [0x000D] a newline, any
    other unit up to [0x001F] (the extended controls too) nothing, any other
    unit its character.  So the decoder consumes one unit per code, whatever
    the code: after a first unit the rest is decoded from the next unit on,
    and fewer than two octets decode to the empty text. *)
Theorem decode_hwp_text_unit_by_unit :
  forall data : bytes,
    _decode_hwp_text data =
      Return (flat_map (fun code => if code =? 0x000D then [10]
                                    else if code <=? 0x001F then []
                                    else [code])
                       (code_units data)) /\
    (forall (b0 b1 : byte) (rest : bytes),
       data = b0 :: b1 :: rest ->
       exists tail : pystr,
         _decode_hwp_text rest = Return tail /\
         _decode_hwp_text data =
           Return ((if le16 b0 b1 =? 0x000D then [10]
                    else if le16 b0 b1 <=? 0x001F then []
                    else [le16 b0 b1]) ++ tail)) /\
    (forall b0 : byte, data = [] \/ data = [b0] ->
       _decode_hwp_text data = Return []).
Proof.
  intros data. split; [apply decode_hwp_text_eq|]. split.
  - intros b0 b1 rest ->. exists (spec_decode rest).
    rewrite !decode_hwp_text_eq. split; reflexivity.
  - intros b0 [-> | ->]; reflexivity.
Qed.

(** ** UTF-16 *)

Lemma pack_H_code_units (c : Z) (bs : bytes) :
  0 <= c < 65536 -> code_units (pack_H c ++ bs) = c :: code_units bs.
Proof.
  intros Hc. unfold pack_H. cbn [app code_units].
  unfold le16. rewrite !byte_val_of_Z. f_equal.
  rewrite (Z.mod_small (c / 256)) by (split; [apply Z.div_pos; lia | apply Z.div_lt_upper_bound; lia]).
  pose proof (Z.div_mod c 256). lia.
Qed.

(** Supporting C2: on text of the Basic Multilingual Plane without control
    codes, decoding the UTF-16LE encoding gives the text back. *)
Lemma decode_encode_bmp (s : pystr) :
  forallb bmp_text_char s = true ->
  exists b : bytes,
    encode_utf16le s = Return b /\ _decode_hwp_text b = Return s.
Proof.
  induction s as [|c s IH]; intros H.
  - exists []. split; reflexivity.
  - simpl in H. apply andb_true_iff in H. destruct H as [Hc Hs].
    destruct (IH Hs) as [bs [Hbs Hdec]].
    unfold bmp_text_char in Hc.
    apply andb_true_iff in Hc. destruct Hc as [Hc Hsur].
    apply andb_true_iff in Hc. destruct Hc as [Hlo Hhi].
    apply Z.ltb_lt in Hlo. apply Z.ltb_lt in Hhi.
    apply negb_true_iff in Hsur.
    exists (pack_H c ++ bs). split.
    + cbn [encode_utf16le]. unfold encode_utf16le_char. rewrite Hsur.
      replace (c <? 65536) with true by (symmetry; apply Z.ltb_lt; lia).
      cbn [bind]. rewrite Hbs. reflexivity.
    + rewrite decode_hwp_text_eq in *.
      assert (Hd : spec_decode bs = s) by congruence.
      unfold spec_decode in *. rewrite pack_H_code_units by lia.
      cbn [flat_map]. rewrite Hd.
      unfold spec_decode_unit.
      replace (c =? 13) with false by (symmetry; apply Z.eqb_neq; lia).
      replace (c <=? 31) with false by (symmetry; apply Z.leb_gt; lia).
      reflexivity.
Qed.

(** Supporting C2: a character above the Basic Multilingual Plane comes
    back as the two surrogates of its encoding. *)
Lemma decode_encode_supplementary (c : Z) :
  0x10000 <= c <= 0x10FFFF ->
  exists b : bytes,
    encode_utf16le [c] = Return b /\
    _decode_hwp_text b =
      Return [0xD800 + (c - 0x10000) / 1024; 0xDC00 + (c - 0x10000) mod 1024].
Proof.
  intros Hc.
  assert (Hhi : 0 <= (c - 65536) / 1024 < 1024)
    by (split; [apply Z.div_pos; lia | apply Z.div_lt_upper_bound; lia]).
  assert (Hlo : 0 <= (c - 65536) mod 1024 < 1024)
    by (apply Z.mod_pos_bound; lia).
  eexists. split.
  - cbn [encode_utf16le]. unfold encode_utf16le_char.
    replace ((55296 <=? c) && (c <=? 57343)) with false
      by (symmetry; apply andb_false_iff; right; apply Z.leb_gt; lia).
    replace (c <? 65536) with false by (symmetry; apply Z.ltb_ge; lia).
    cbn [bind]. reflexivity.
  - rewrite decode_hwp_text_eq. unfold spec_decode.
    rewrite <- app_assoc.
    rewrite !pack_H_code_units by lia. cbn [code_units flat_map].
    unfold spec_decode_unit.
    replace (55296 + (c - 65536) / 1024 =? 13) with false
      by (symmetry; apply Z.eqb_neq; lia).
    replace (55296 + (c - 65536) / 1024 <=? 31) with false
      by (symmetry; apply Z.leb_gt; lia).
    replace (56320 + (c - 65536) mod 1024 =? 13) with false
      by (symmetry; apply Z.eqb_neq; lia).
    replace (56320 + (c - 65536) mod 1024 <=? 31) with false
      by (symmetry; apply Z.leb_gt; lia).
    reflexivity.
Qed.

(** C2: the character U+1F600 is encoded as the surrogate pair D83D DE00
    and contains no control code, and the decoder returns the two surrogates
    as two characters, not the character. *)
Theorem decode_surrogate_pair_not_combined :
  encode_utf16le [0x1F600] = Return [x3d; xd8; x00; xde] /\
  forallb (fun u => 0x001F <? u) (code_units [x3d; xd8; x00; xde]) = true /\
  _decode_hwp_text [x3d; xd8; x00; xde] = Return [0xD83D; 0xDE00] /\
  _decode_hwp_text [x3d; xd8; x00; xde] <> Return [0x1F600].
Proof.
  repeat split; try reflexivity.
  rewrite decode_hwp_text_eq. intros H. inversion H.
Qed.

(** ** The text normalizer *)

(** C3: on the text "a", three lines of one space, "b", the first pass
    leaves four newlines between "a" and "b" and the second pass collapses
    them to two: the normalizer is not idempotent there. *)
Theorem clean_text_second_pass_differs :
  let x := [97; 10; 32; 10; 32; 10; 32; 10; 98] in
  _clean_text x = [97; 10; 10; 10; 10; 98] /\
  _clean_text (_clean_text x) = [97; 10; 10; 98] /\
  _clean_text (_clean_text x) <> _clean_text x.
Proof.
  cbv zeta. repeat split. intros H. inversion H.
Qed.

(** ** The record header *)

Lemma testbit_1023 (i : Z) : 0 <= i -> Z.testbit 0x3FF i = (i <? 10).
Proof.
  intros Hi. change 0x3FF with (Z.ones 10).
  apply Z.testbit_ones_nonneg; lia.
Qed.

Lemma testbit_4095 (i : Z) : 0 <= i -> Z.testbit 0xFFF i = (i <? 12).
Proof.
  intros Hi. change 0xFFF with (Z.ones 12).
  apply Z.testbit_ones_nonneg; lia.
Qed.

Lemma unpack_from_I_Return (data : bytes) (offset h : Z) :
  0 <= offset ->
  unpack_from_I data offset = Return h ->
  offset + 4 <= len data /\ 0 <= h < 2 ^ 32.
Proof.
  intros Hoff H. unfold unpack_from_I in H.
  destruct (skipn (Z.to_nat offset) data) as [|b0 [|b1 [|b2 [|b3 r]]]] eqn:E;
    try discriminate.
  injection H as Hh. split.
  - assert (Hl : List.length (skipn (Z.to_nat offset) data) = List.length (b0 :: b1 :: b2 :: b3 :: r))
      by (rewrite E; reflexivity).
    rewrite length_skipn in Hl. cbn [List.length] in Hl. unfold len. lia.
  - subst h. apply le32_range.
Qed.

Lemma unpack_from_I_ok (data : bytes) (offset : Z) :
  0 <= offset -> offset + 4 <= len data ->
  exists h, unpack_from_I data offset = Return h /\ 0 <= h < 2 ^ 32.
Proof.
  intros Hoff Hlen. unfold unpack_from_I.
  assert (Hl : (4 <= List.length (skipn (Z.to_nat offset) data))%nat).
  { rewrite length_skipn. unfold len in Hlen. lia. }
  destruct (skipn (Z.to_nat offset) data) as [|b0 [|b1 [|b2 [|b3 r]]]] eqn:E;
    simpl in Hl; try lia.
  eexists. split; [reflexivity|]. apply le32_range.
Qed.

Lemma header_size_range (h : Z) : 0 <= header_size h < 4096.
Proof.
  unfold header_size. change 0xFFF with (Z.ones 12).
  rewrite Z.land_ones by lia. apply Z.mod_pos_bound. lia.
Qed.

Lemma gtb_false (a b : Z) : a <= b -> (a >? b) = false.
Proof. intros H. rewrite Z.gtb_ltb. apply Z.ltb_ge. exact H. Qed.

Lemma gtb_true (a b : Z) : b < a -> (a >? b) = true.
Proof. intros H. rewrite Z.gtb_ltb. apply Z.ltb_lt. exact H. Qed.

Lemma read_record_header_plain (data : bytes) (offset header : Z) :
  0 <= offset ->
  unpack_from_I data offset = Return header ->
  header_size header <> 0xFFF ->
  read_record_header data offset =
    Return (Some (header_tag_id header, header_size header, offset + 4)).
Proof.
  intros Hoff Hh Hsz. unfold read_record_header.
  destruct (unpack_from_I_Return data offset header Hoff Hh) as [Hlen _].
  rewrite gtb_false by exact Hlen. rewrite Hh. cbn [bind].
  apply Z.eqb_neq in Hsz. rewrite Hsz. reflexivity.
Qed.

Lemma read_record_header_escape (data : bytes) (offset header n : Z) :
  0 <= offset ->
  unpack_from_I data offset = Return header ->
  header_size header = 0xFFF ->
  unpack_from_I data (offset + 4) = Return n ->
  read_record_header data offset =
    Return (Some (header_tag_id header, n, offset + 8)).
Proof.
  intros Hoff Hh Hsz Hn. unfold read_record_header.
  destruct (unpack_from_I_Return data offset header Hoff Hh) as [Hlen _].
  assert (Hoff4 : 0 <= offset + 4) by lia.
  destruct (unpack_from_I_Return data (offset + 4) n Hoff4 Hn) as [Hlen' _].
  rewrite gtb_false by exact Hlen. rewrite Hh. cbn [bind].
  rewrite Hsz. cbn [Z.eqb Pos.eqb]. rewrite gtb_false by exact Hlen'.
  rewrite Hn. cbn [bind]. replace (offset + 4 + 4) with (offset + 8) by lia.
  reflexivity.
Qed.

(** C4: the tokenizer takes [tag_id] from bits 0-9 of the header word and
    [size] from bits 20-31 ([level], which it leaves unread, is bits 10-19);
    a [size] other than [0xFFF] is the payload size, and behind a [size] of
    [0xFFF] the payload size is the four-octet little-endian integer that
    follows the header word. *)
Theorem record_header_fields :
  forall (data : bytes) (offset header : Z),
    0 <= offset ->
    unpack_from_I data offset = Return header ->
    (forall i, 0 <= i ->
       Z.testbit (header_tag_id header) i = (i <? 10) && Z.testbit header i) /\
    (forall i, 0 <= i ->
       Z.testbit (header_level header) i
       = (i <? 10) && Z.testbit header (i + 10)) /\
    (forall i, 0 <= i ->
       Z.testbit (header_size header) i
       = (i <? 12) && Z.testbit header (i + 20)) /\
    header_tag_id header = header mod 2 ^ 10 /\
    header_level header = (header / 2 ^ 10) mod 2 ^ 10 /\
    header_size header = header / 2 ^ 20 /\
    (header_size header <> 0xFFF ->
       read_record_header data offset =
         Return (Some (header_tag_id header, header_size header, offset + 4))) /\
    (header_size header = 0xFFF ->
       forall n, unpack_from_I data (offset + 4) = Return n ->
         read_record_header data offset =
           Return (Some (header_tag_id header, n, offset + 8))).
Proof.
  intros data offset header Hoff Hh.
  destruct (unpack_from_I_Return data offset header Hoff Hh) as [_ Hrange].
  repeat split.
  - intros i Hi. unfold header_tag_id.
    rewrite Z.land_spec, testbit_1023 by exact Hi. apply andb_comm.
  - intros i Hi. unfold header_level.
    rewrite Z.land_spec, Z.shiftr_spec, testbit_1023 by exact Hi.
    apply andb_comm.
  - intros i Hi. unfold header_size.
    rewrite Z.land_spec, Z.shiftr_spec, testbit_4095 by exact Hi.
    apply andb_comm.
  - unfold header_tag_id. change 0x3FF with (Z.ones 10).
    apply Z.land_ones. lia.
  - unfold header_level. change 0x3FF with (Z.ones 10).
    rewrite Z.land_ones by lia. rewrite Z.shiftr_div_pow2 by lia. reflexivity.
  - unfold header_size. change 0xFFF with (Z.ones 12).
    rewrite Z.land_ones by lia. rewrite Z.shiftr_div_pow2 by lia.
    apply Z.mod_small. split.
    + apply Z.div_pos; lia.
    + apply Z.div_lt_upper_bound; [lia|].
      change (2 ^ 20 * 2 ^ 12) with (2 ^ 32). lia.
  - intros Hsz. apply read_record_header_plain; assumption.
  - intros Hsz n Hn. apply read_record_header_escape; assumption.
Qed.

(** ** Termination of the tokenizer *)

Lemma read_record_header_ok (data : bytes) (offset : Z) :
  0 <= offset ->
  read_record_header data offset = Return None \/
  exists tag_id size offset',
    read_record_header data offset = Return (Some (tag_id, size, offset'))
    /\ offset + 4 <= offset' <= len data /\ 0 <= size.
Proof.
  intros Hoff. unfold read_record_header.
  destruct (Z.le_gt_cases (offset + 4) (len data)) as [Hle|Hgt].
  2:{ left. rewrite gtb_true by lia. reflexivity. }
  rewrite gtb_false by exact Hle.
  destruct (unpack_from_I_ok data offset Hoff Hle) as [h [Hh Hrange]].
  rewrite Hh. cbn [bind].
  destruct (header_size h =? 4095) eqn:Esz.
  - destruct (Z.le_gt_cases (offset + 4 + 4) (len data)) as [Hle'|Hgt'].
    2:{ left. rewrite gtb_true by lia. reflexivity. }
    rewrite gtb_false by exact Hle'.
    assert (Hoff4 : 0 <= offset + 4) by lia.
    destruct (unpack_from_I_ok data (offset + 4) Hoff4 Hle') as [n [Hn Hnr]].
    rewrite Hn. cbn [bind]. right.
    exists (header_tag_id h), n, (offset + 4 + 4).
    split; [reflexivity|]. lia.
  - right. exists (header_tag_id h), (header_size h), (offset + 4).
    split; [reflexivity|]. pose proof (header_size_range h). lia.
Qed.

Lemma record_step_ok (data : bytes) (offset : Z) (texts : list pystr) :
  0 <= offset ->
  record_step data offset texts = Return None \/
  exists offset' texts',
    record_step data offset texts = Return (Some (offset', texts'))
    /\ offset + 4 <= offset' <= len data.
Proof.
  intros Hoff. unfold record_step.
  destruct (read_record_header_ok data offset Hoff)
    as [Hnone | [tag_id [size [off' [Hsome [Hbounds Hsize]]]]]].
  - rewrite Hnone. left. reflexivity.
  - rewrite Hsome. cbn [bind].
    destruct (Z.le_gt_cases (off' + size) (len data)) as [Hle|Hgt].
    2:{ left. rewrite gtb_true by lia. reflexivity. }
    rewrite gtb_false by exact Hle. right.
    destruct (tag_id =? 67).
    + rewrite decode_hwp_text_eq. cbn [bind].
      eexists. eexists. split; [reflexivity|]. lia.
    + cbn [bind]. eexists. eexists. split; [reflexivity|]. lia.
Qed.

Lemma records_loop_total (fuel : nat) :
  forall (data : bytes) (offset : Z) (texts : list pystr),
    0 <= offset ->
    (Z.to_nat (len data - offset) < fuel)%nat ->
    exists texts', records_loop fuel data offset texts = Return texts'.
Proof.
  induction fuel as [|fuel IH]; intros data offset texts Hoff Hfuel; [lia|].
  cbn [records_loop].
  destruct (offset <? len data) eqn:Elt; [|eexists; reflexivity].
  apply Z.ltb_lt in Elt.
  destruct (record_step_ok data offset texts Hoff)
    as [Hnone | [offset' [texts' [Hsome Hbounds]]]].
  - rewrite Hnone. cbn [bind]. eexists; reflexivity.
  - rewrite Hsome. cbn [bind]. apply IH; lia.
Qed.

Lemma extract_text_from_hwp_records_total (data : bytes) :
  exists text, _extract_text_from_hwp_records data = Return text.
Proof.
  unfold _extract_text_from_hwp_records.
  destruct (records_loop_total (S (List.length data)) data 0 []) as [texts H].
  - lia.
  - unfold len. lia.
  - rewrite H. cbn [bind]. eexists; reflexivity.
Qed.

(** C10: on every byte string the tokenizer returns a text: it raises
    nothing and its loop ends.  An iteration either stops the scan or moves
    the cursor on by at least four octets without leaving the buffer; a
    header word or an extended size that cannot be read whole, and a payload
    that would end behind the buffer, stop the scan. *)
Theorem record_tokenizer_terminates :
  forall data : bytes,
    (exists text, _extract_text_from_hwp_records data = Return text) /\
    (forall (offset : Z) (texts : list pystr),
       0 <= offset ->
       (record_step data offset texts = Return None \/
        exists offset' texts',
          record_step data offset texts = Return (Some (offset', texts'))
          /\ offset + 4 <= offset' <= len data) /\
       (len data < offset + 4 -> record_step data offset texts = Return None) /\
       (forall header,
          unpack_from_I data offset = Return header ->
          header_size header = 0xFFF ->
          len data < offset + 8 ->
          record_step data offset texts = Return None) /\
       (forall tag_id size offset',
          read_record_header data offset = Return (Some (tag_id, size, offset')) ->
          len data < offset' + size ->
          record_step data offset texts = Return None)).
Proof.
  intros data. split; [apply extract_text_from_hwp_records_total|].
  intros offset texts Hoff. repeat split.
  - apply record_step_ok. exact Hoff.
  - intros Hshort. unfold record_step, read_record_header.
    rewrite gtb_true by lia. reflexivity.
  - intros header Hh Hsz Hshort. unfold record_step, read_record_header.
    destruct (unpack_from_I_Return data offset header Hoff Hh) as [Hlen _].
    rewrite gtb_false by exact Hlen. rewrite Hh. cbn [bind].
    rewrite Hsz. cbn [Z.eqb Pos.eqb]. rewrite gtb_true by lia. reflexivity.
  - intros tag_id size offset' Hhdr Hover. unfold record_step.
    rewrite Hhdr. cbn [bind]. rewrite gtb_true by lia. reflexivity.
Qed.

(** ** Records built by the serializer *)

Lemma le32_pack_I (n : Z) (rest : bytes) :
  0 <= n < 2 ^ 32 ->
  exists b0 b1 b2 b3,
    pack_I n ++ rest = b0 :: b1 :: b2 :: b3 :: rest /\ le32 b0 b1 b2 b3 = n.
Proof.
  intros Hn. change (2 ^ 32) with 4294967296 in Hn. unfold pack_I.
  eexists. eexists. eexists. eexists. split; [reflexivity|].
  unfold le32. rewrite !byte_val_of_Z.
  pose proof (Z.div_mod n 256) as H0.
  pose proof (Z.div_mod (n / 256) 256) as H1.
  pose proof (Z.div_mod (n / 65536) 256) as H2.
  replace (n / 256 / 256) with (n / 65536) in H1
    by (rewrite Z.div_div by lia; reflexivity).
  replace (n / 65536 / 256) with (n / 16777216) in H2
    by (rewrite Z.div_div by lia; reflexivity).
  assert (H3 : 0 <= n / 16777216 < 256)
    by (split; [apply Z.div_pos; lia | apply Z.div_lt_upper_bound; lia]).
  rewrite (Z.mod_small (n / 16777216)) by exact H3.
  lia.
Qed.

Lemma skipn_len_app {A : Type} (pre x : list A) :
  skipn (Z.to_nat (len pre)) (pre ++ x) = x.
Proof.
  unfold len. rewrite Nat2Z.id. rewrite skipn_app.
  rewrite skipn_all. rewrite Nat.sub_diag. reflexivity.
Qed.

Lemma unpack_from_I_pack_I (pre rest : bytes) (n : Z) :
  0 <= n < 2 ^ 32 ->
  unpack_from_I (pre ++ pack_I n ++ rest) (len pre) = Return n.
Proof.
  intros Hn. unfold unpack_from_I. rewrite skipn_len_app.
  destruct (le32_pack_I n rest Hn) as [b0 [b1 [b2 [b3 [E Hv]]]]].
  rewrite E. rewrite Hv. reflexivity.
Qed.

Lemma len_pack_I (n : Z) : len (pack_I n) = 4.
Proof. reflexivity. Qed.

Lemma slice_middle (pre d post : bytes) :
  slice (pre ++ d ++ post) (len pre) (len pre + len d) = d.
Proof.
  unfold slice. rewrite skipn_len_app.
  replace (len pre + len d - len pre) with (len d) by lia.
  unfold len. rewrite Nat2Z.id.
  rewrite firstn_app. rewrite firstn_all. rewrite Nat.sub_diag.
  simpl. apply app_nil_r.
Qed.

(** A number below [2^n] has no bit from [n] on, and conversely. *)
Lemma bits_above_bound (a n : Z) :
  0 <= n -> 0 <= a ->
  (forall i, n <= i -> Z.testbit a i = false) -> a < 2 ^ n.
Proof.
  intros Hn Ha Hbits.
  assert (E : a = a mod 2 ^ n).
  { apply Z.bits_inj'. intros i Hi.
    destruct (Z.lt_ge_cases i n) as [Hlt|Hge].
    - rewrite Z.mod_pow2_bits_low by lia. reflexivity.
    - rewrite Z.mod_pow2_bits_high by lia. apply Hbits. exact Hge. }
  rewrite E. apply Z.mod_pos_bound. apply Z.pow_pos_nonneg; lia.
Qed.

Lemma testbit_small (a n i : Z) :
  0 <= a < 2 ^ n -> n <= i -> Z.testbit a i = false.
Proof.
  intros Ha Hi.
  destruct (Z.eq_dec a 0) as [->|Hnz]; [apply Z.bits_0|].
  assert (Hlog : Z.log2 a < n) by (apply Z.log2_lt_pow2; lia).
  apply Z.bits_above_log2; lia.
Qed.

Lemma built_header_testbit (tag_id level s i : Z) :
  0 <= i ->
  Z.testbit (built_header tag_id level s) i =
    ((i <? 10) && Z.testbit tag_id i)
    || ((10 <=? i) && (i <? 20) && Z.testbit level (i - 10))
    || ((20 <=? i) && Z.testbit s (i - 20)).
Proof.
  intros Hi. unfold built_header.
  rewrite !Z.lor_spec, !Z.shiftl_spec, !Z.land_spec by exact Hi.
  destruct (Z.ltb_spec i 10) as [H10|H10].
  - rewrite testbit_1023 by exact Hi.
    replace (i <? 10) with true by (symmetry; apply Z.ltb_lt; lia).
    rewrite (Z.testbit_neg_r _ (i - 10)) by lia.
    rewrite (Z.testbit_neg_r _ (i - 20)) by lia.
    replace (10 <=? i) with false by (symmetry; apply Z.leb_gt; lia).
    replace (20 <=? i) with false by (symmetry; apply Z.leb_gt; lia).
    cbn [andb orb]. rewrite andb_true_r, !orb_false_r. reflexivity.
  - rewrite testbit_1023 by exact Hi.
    replace (i <? 10) with false by (symmetry; apply Z.ltb_ge; lia).
    replace (10 <=? i) with true by (symmetry; apply Z.leb_le; lia).
    rewrite andb_false_r. cbn [andb orb].
    rewrite testbit_1023 by lia.
    destruct (Z.ltb_spec i 20) as [H20|H20].
    + replace (i - 10 <? 10) with true by (symmetry; apply Z.ltb_lt; lia).
      replace (20 <=? i) with false by (symmetry; apply Z.leb_gt; lia).
      rewrite (Z.testbit_neg_r _ (i - 20)) by lia.
      rewrite andb_true_r. reflexivity.
    + replace (i - 10 <? 10) with false by (symmetry; apply Z.ltb_ge; lia).
      replace (20 <=? i) with true by (symmetry; apply Z.leb_le; lia).
      rewrite andb_false_r. reflexivity.
Qed.

Lemma built_header_range (tag_id level s : Z) :
  0 <= s < 4096 -> 0 <= built_header tag_id level s < 2 ^ 32.
Proof.
  intros Hs. assert (Hnn : 0 <= built_header tag_id level s).
  { unfold built_header. apply Z.lor_nonneg. split.
    - apply Z.lor_nonneg. split.
      + apply Z.land_nonneg. right. lia.
      + apply Z.shiftl_nonneg. apply Z.land_nonneg. right. lia.
    - apply Z.shiftl_nonneg. lia. }
  split; [exact Hnn|].
  apply bits_above_bound; [lia | exact Hnn |].
  intros i Hi. rewrite built_header_testbit by lia.
  replace (i <? 10) with false by (symmetry; apply Z.ltb_ge; lia).
  replace (i <? 20) with false by (symmetry; apply Z.ltb_ge; lia).
  rewrite andb_false_r. cbn [andb orb].
  rewrite (testbit_small s 12) by (change (2 ^ 12) with 4096; lia).
  apply andb_false_r.
Qed.

Lemma built_header_tag_id (tag_id level s : Z) :
  header_tag_id (built_header tag_id level s) = Z.land tag_id 0x3FF.
Proof.
  unfold header_tag_id. apply Z.bits_inj'. intros i Hi.
  rewrite !Z.land_spec, built_header_testbit, testbit_1023 by exact Hi.
  destruct (Z.ltb_spec i 10) as [H10|H10].
  - replace (10 <=? i) with false by (symmetry; apply Z.leb_gt; lia).
    replace (20 <=? i) with false by (symmetry; apply Z.leb_gt; lia).
    destruct (Z.testbit tag_id i); reflexivity.
  - rewrite !andb_false_r. reflexivity.
Qed.

Lemma built_header_size (tag_id level s : Z) :
  0 <= s < 4096 -> header_size (built_header tag_id level s) = s.
Proof.
  intros Hs. unfold header_size. apply Z.bits_inj'. intros i Hi.
  rewrite Z.land_spec, Z.shiftr_spec, built_header_testbit, testbit_4095 by lia.
  replace (i + 20 <? 10) with false by (symmetry; apply Z.ltb_ge; lia).
  replace (i + 20 <? 20) with false by (symmetry; apply Z.ltb_ge; lia).
  replace (20 <=? i + 20) with true by (symmetry; apply Z.leb_le; lia).
  rewrite andb_false_r. cbn [andb orb].
  replace (i + 20 - 20) with i by lia.
  destruct (Z.ltb_spec i 12) as [H12|H12].
  - apply andb_true_r.
  - rewrite andb_false_r. symmetry.
    apply (testbit_small s 12); [change (2 ^ 12) with 4096; lia | exact H12].
Qed.

Lemma record_step_payload (data pre d post : bytes) (offset tag_id : Z)
  (texts : list pystr) :
  read_record_header data offset = Return (Some (tag_id, len d, len pre)) ->
  data = pre ++ d ++ post ->
  record_step data offset texts =
    Return (Some (len pre + len d,
                  if (tag_id =? 67) && truthy (strip (spec_decode d))
                  then texts ++ [spec_decode d] else texts)).
Proof.
  intros Hhdr Hdata. unfold record_step. rewrite Hhdr. cbn [bind].
  assert (Hlen : len data = len pre + len d + len post)
    by (rewrite Hdata, !len_app; lia).
  pose proof (len_nonneg post).
  rewrite gtb_false by lia.
  rewrite Hdata at 1. rewrite slice_middle.
  destruct (tag_id =? 67).
  - rewrite decode_hwp_text_eq. cbn [bind andb]. reflexivity.
  - reflexivity.
Qed.

Lemma build_cases (r : hwp_record) :
  (0xFFF <= len (rec_data r) /\
   build r = pack_I (built_header (rec_tag_id r) (rec_level r) 0xFFF)
             ++ pack_I (len (rec_data r)) ++ rec_data r) \/
  (len (rec_data r) < 0xFFF /\
   build r = pack_I (built_header (rec_tag_id r) (rec_level r) (len (rec_data r)))
             ++ rec_data r).
Proof.
  unfold build, _build_hwp_record.
  destruct (len (rec_data r) >=? 4095) eqn:E.
  - left. split; [apply Z.geb_le in E; lia | reflexivity].
  - right. assert (Hlt : len (rec_data r) < 4095).
    { rewrite Z.geb_leb in E. apply Z.leb_gt in E. exact E. }
    split; [exact Hlt|].
    unfold built_header. change 0xFFF with (Z.ones 12).
    rewrite (Z.land_ones (len (rec_data r))) by lia.
    rewrite Z.mod_small
      by (pose proof (len_nonneg (rec_data r)); change (2 ^ 12) with 4096; lia).
    reflexivity.
Qed.






(** ** Streams of whole records in either header form *)

Lemma len_record_bytes (r : stream_record) :
  len (record_bytes r) =
    len (sr_data r) + (if header_size (sr_header r) =? 0xFFF then 8 else 4).
Proof.
  unfold record_bytes. destruct (header_size (sr_header r) =? 4095);
    rewrite !len_app, !len_pack_I; [lia|]. change (len (@nil byte)) with 0. lia.
Qed.

Lemma record_step_whole (pre post : bytes) (r : stream_record)
  (texts : list pystr) :
  whole_record r ->
  record_step (pre ++ record_bytes r ++ post) (len pre) texts =
    Return (Some (len pre + len (record_bytes r),
                  if (header_tag_id (sr_header r) =? 67)
                     && truthy (strip (spec_decode (sr_data r)))
                  then texts ++ [spec_decode (sr_data r)] else texts)).
Proof.
  intros [Hh [Hd Hsz]]. pose proof (len_nonneg (sr_data r)) as Hnn.
  pose proof (len_nonneg pre) as Hpre.
  rewrite len_record_bytes. unfold record_bytes.
  set (h := sr_header r) in *. set (d := sr_data r) in *.
  destruct (header_size h =? 4095) eqn:E.
  - apply Z.eqb_eq in E.
    assert (Hu1 : unpack_from_I (pre ++ (pack_I h ++ pack_I (len d) ++ d) ++ post)
                    (len pre) = Return h).
    { rewrite <- !app_assoc. apply unpack_from_I_pack_I. exact Hh. }
    assert (Hu2 : unpack_from_I (pre ++ (pack_I h ++ pack_I (len d) ++ d) ++ post)
                    (len pre + 4) = Return (len d)).
    { replace (len pre + 4) with (len (pre ++ pack_I h))
        by (rewrite len_app, len_pack_I; reflexivity).
      replace (pre ++ (pack_I h ++ pack_I (len d) ++ d) ++ post)
        with ((pre ++ pack_I h) ++ pack_I (len d) ++ (d ++ post))
        by (rewrite <- !app_assoc; reflexivity).
      apply unpack_from_I_pack_I. lia. }
    assert (Hhdr : read_record_header
                     (pre ++ (pack_I h ++ pack_I (len d) ++ d) ++ post) (len pre)
                   = Return (Some (header_tag_id h, len d,
                                   len (pre ++ pack_I h ++ pack_I (len d))))).
    { rewrite (read_record_header_escape _ _ h (len d)); try assumption.
      rewrite !len_app, !len_pack_I.
      replace (len pre + (4 + 4)) with (len pre + 8) by lia. reflexivity. }
    rewrite (record_step_payload _ (pre ++ pack_I h ++ pack_I (len d)) d post
               _ _ texts Hhdr)
      by (rewrite <- !app_assoc; reflexivity).
    rewrite !len_app, !len_pack_I.
    replace (len pre + (4 + 4) + len d) with (len pre + (len d + 8)) by lia.
    reflexivity.
  - apply Z.eqb_neq in E.
    assert (Hsize : header_size h = len d) by (destruct Hsz; congruence).
    cbn [app].
    assert (Hu1 : unpack_from_I (pre ++ (pack_I h ++ d) ++ post) (len pre)
                  = Return h).
    { rewrite <- !app_assoc. apply unpack_from_I_pack_I. exact Hh. }
    assert (Hhdr : read_record_header (pre ++ (pack_I h ++ d) ++ post) (len pre)
                   = Return (Some (header_tag_id h, len d,
                                   len (pre ++ pack_I h)))).
    { rewrite (read_record_header_plain _ _ h); try assumption.
      rewrite Hsize, !len_app, !len_pack_I. reflexivity. }
    rewrite (record_step_payload _ (pre ++ pack_I h) d post _ _ texts Hhdr)
      by (rewrite <- !app_assoc; reflexivity).
    rewrite !len_app, !len_pack_I.
    replace (len pre + 4 + len d) with (len pre + (len d + 4)) by lia.
    reflexivity.
Qed.

Lemma records_loop_stream (rs : list stream_record) :
  forall (pre : bytes) (texts : list pystr) (fuel : nat),
    Forall whole_record rs ->
    (List.length rs < fuel)%nat ->
    records_loop fuel (pre ++ record_stream rs) (len pre) texts =
      Return (texts ++
              map (fun r => spec_decode (sr_data r))
                  (filter (fun r =>
                             (header_tag_id (sr_header r) =? 67)
                             && truthy (strip (spec_decode (sr_data r))))
                          rs)).
Proof.
  induction rs as [|r rs IH]; intros pre texts fuel Hwf Hfuel.
  - destruct fuel as [|fuel]; [simpl in Hfuel; lia|].
    cbn [records_loop]. unfold record_stream. cbn [map List.concat].
    rewrite !app_nil_r. rewrite Z.ltb_irrefl. reflexivity.
  - destruct fuel as [|fuel]; [simpl in Hfuel; lia|].
    inversion Hwf as [|r' rs' Hr Hrs]; subst.
    cbn [records_loop]. unfold record_stream. cbn [map List.concat].
    fold (record_stream rs).
    pose proof (len_record_bytes r) as Hlen.
    pose proof (len_nonneg (sr_data r)). pose proof (len_nonneg (record_stream rs)).
    assert (Hge : 4 <= len (record_bytes r))
      by (rewrite Hlen; destruct (header_size (sr_header r) =? 4095); lia).
    replace (len pre <? len (pre ++ record_bytes r ++ record_stream rs))
      with true by (symmetry; apply Z.ltb_lt; rewrite !len_app; lia).
    rewrite record_step_whole by exact Hr. cbn [bind].
    replace (len pre + len (record_bytes r)) with (len (pre ++ record_bytes r))
      by (rewrite len_app; reflexivity).
    rewrite app_assoc.
    rewrite IH by (assumption || (simpl in Hfuel; lia)).
    cbn [filter].
    destruct ((header_tag_id (sr_header r) =? 67)
              && truthy (strip (spec_decode (sr_data r)))).
    + cbn [map]. rewrite <- app_assoc. reflexivity.
    + reflexivity.
Qed.

Lemma length_record_stream (rs : list stream_record) :
  (List.length rs <= List.length (record_stream rs))%nat.
Proof.
  induction rs as [|r rs IH]; [simpl; lia|].
  unfold record_stream in *. cbn [map List.concat List.length].
  rewrite length_app.
  pose proof (len_record_bytes r) as H. unfold len in H.
  destruct (header_size (sr_header r) =? 4095); lia.
Qed.

(** C7, as the code has it: in every stream of whole records, whether a
    record has its size in the header word or behind the escape value, each
    text-kind record (tag 67) whose decoded text is not blank contributes
    its full decoded text, and the contributions are joined by newlines in
    stream order; a text-kind record whose decoded text is blank and a
    record of any other kind contribute nothing, whatever their payload. *)
Theorem text_records_contribute_in_order :
  forall rs : list stream_record,
    Forall whole_record rs ->
    _extract_text_from_hwp_records (record_stream rs) =
      Return (join [10]
                (map (fun r => spec_decode (sr_data r))
                     (filter (fun r =>
                                (header_tag_id (sr_header r) =? 67)
                                && truthy (strip (spec_decode (sr_data r))))
                             rs))) /\
    Forall (fun r => _decode_hwp_text (sr_data r)
                     = Return (spec_decode (sr_data r))) rs.
Proof.
  intros rs Hwf. split.
  - unfold _extract_text_from_hwp_records.
    pose proof (records_loop_stream rs [] []
                  (S (List.length (record_stream rs))) Hwf) as H.
    cbn [app] in H. change (len (@nil byte)) with 0 in H.
    rewrite H by (pose proof (length_record_stream rs); lia).
    reflexivity.
  - apply Forall_forall. intros r _. apply decode_hwp_text_eq.
Qed.

(** C7, as stated, fails on a stream of three text-kind records that hold
    "A", one space and "B": the second record decodes to a non-empty text,
    the section result is "A", newline, "B", and the text of the second
    record does not occur in it. *)
Lemma blank_text_record_dropped :
  exists text result,
    _decode_hwp_text [x20; x00] = Return text /\
    _extract_text_from_hwp_records
      (record_stream
         [ {| sr_header := 0x00200043; sr_data := [x41; x00] |};
           {| sr_header := 0x00200043; sr_data := [x20; x00] |};
           {| sr_header := 0x00200043; sr_data := [x42; x00] |} ])
    = Return result /\
    text <> [] /\ ~ occurs_in text result.
Proof.
  exists [32], [65; 10; 66].
  split; [vm_compute; reflexivity|].
  split; [vm_compute; reflexivity|].
  split; [discriminate|].
  unfold occurs_in. intros [pre [post H]].
  destruct pre as [|a [|b [|c [|d pre]]]]; simpl in H; discriminate H.
Qed.

(** ** The PDF page extractor *)

Lemma pdf_pages_loop_spec (texts : list (option pystr)) :
  forall acc : list pystr,
    pdf_pages_loop (map Ok texts) acc = Return (acc ++ nonempty_page_texts texts).
Proof.
  induction texts as [|t texts IH]; intros acc.
  - simpl. rewrite app_nil_r. reflexivity.
  - cbn [map pdf_pages_loop call bind].
    destruct t as [[|c t]|]; rewrite IH; cbn [nonempty_page_texts flat_map app];
      try reflexivity.
    rewrite <- app_assoc. reflexivity.
Qed.

Lemma nonempty_page_texts_nil (texts : list (option pystr)) :
  forallb page_is_empty texts = true -> nonempty_page_texts texts = [].
Proof.
  induction texts as [|t texts IH]; intros H; [reflexivity|].
  simpl in H. apply andb_true_iff in H. destruct H as [Ht Hts].
  destruct t as [[|c t]|]; try discriminate; simpl; apply IH; exact Hts.
Qed.




(** ** Sorting *)

Section SortBy.
Context {A : Type} (leb : A -> A -> bool).



Lemma insert_by_perm (x : A) (l : list A) :
  Permutation (insert_by leb x l) (x :: l).
Proof.
  induction l as [|y l IH]; simpl; [reflexivity|].
  destruct (leb x y); [reflexivity|].
  rewrite IH. apply perm_swap.
Qed.

Lemma sort_by_perm (l : list A) : Permutation (sort_by leb l) l.
Proof.
  induction l as [|x l IH]; simpl; [reflexivity|].
  rewrite insert_by_perm. apply perm_skip. exact IH.
Qed.

Hypothesis leb_total : forall a b, leb a b = true \/ leb b a = true.

Lemma insert_by_sorted (x : A) (l : list A) :
  Sorted (fun a b => leb a b = true) l ->
  Sorted (fun a b => leb a b = true) (insert_by leb x l).
Proof.
  induction l as [|y l IH]; intros Hs; simpl.
  - constructor; constructor.
  - destruct (leb x y) eqn:E.
    + constructor; [exact Hs|]. constructor. exact E.
    + inversion Hs as [|y' l' Hl Hhd]; subst.
      constructor; [apply IH; exact Hl|].
      destruct l as [|z l]; simpl.
      * constructor. destruct (leb_total x y) as [H|H]; congruence.
      * destruct (leb x z).
        -- constructor. destruct (leb_total x y) as [H|H]; congruence.
        -- constructor. inversion Hhd; assumption.
Qed.

Lemma sort_by_sorted (l : list A) :
  Sorted (fun a b => leb a b = true) (sort_by leb l).
Proof.
  induction l as [|x l IH]; simpl; [constructor|].
  apply insert_by_sorted. exact IH.
Qed.
End SortBy.

(** Supporting C5 on the legacy container: the body section streams are
    processed in ascending order of their numeric suffix, and they are the
    streams under [BodyText/Section]. *)
Lemma hwp_section_streams_ascending (L : runtime) (listdir : list (list pystr)) :
  Sorted (fun a b => section_key L a <= section_key L b)
         (hwp_section_streams L listdir)
  /\ Permutation (hwp_section_streams L listdir)
       (filter (fun stream_path =>
                  startswith (lit "BodyText/Section")
                             (join (lit "/") stream_path)) listdir).
Proof.
  unfold hwp_section_streams, sort_key. split.
  - set (l := filter _ listdir).
    assert (Hs : Sorted (fun a b => (section_key L a <=? section_key L b) = true)
                   (sort_by (fun a b => section_key L a <=? section_key L b) l)).
    { apply sort_by_sorted. intros a b.
      destruct (Z.le_ge_cases (section_key L a) (section_key L b));
        [left|right]; apply Z.leb_le; assumption. }
    induction Hs as [|x xs Hxs IH Hhd]; constructor; [exact IH|].
    destruct Hhd as [|y ys Hxy]; constructor. apply Z.leb_le. exact Hxy.
  - apply sort_by_perm.
Qed.



(** ** The archive extractor *)





(** C5: the legacy container with the streams [Section10] and [Section9]
    gives the text of section 9 first, and the archive with the entries
    [section9.xml] and [section10.xml] gives the text of section 10 first:
    its entries are sorted as strings, not by their number. *)
Theorem hwpx_sections_sorted_as_strings :
  hwp_section_streams ascii_runtime
    [[lit "BodyText"; lit "Section10"]; [lit "BodyText"; lit "Section9"]]
  = [[lit "BodyText"; lit "Section9"]; [lit "BodyText"; lit "Section10"]] /\
  _parse_hwp ascii_runtime example_world (lit "/data/doc.hwp")
  = Return (lit "9" ++ [10] ++ lit "10") /\
  hwpx_section_files ascii_runtime
    [lit "Contents/section9.xml"; lit "Contents/section10.xml"]
  = [lit "Contents/section10.xml"; lit "Contents/section9.xml"] /\
  _parse_hwpx ascii_runtime example_world (lit "/data/long.hwpx")
  = Return (lit "ten" ++ [10] ++ lit "nine").
Proof.
  repeat split; vm_compute; reflexivity.
Qed.

(** ** The dispatcher *)

Lemma finishes_bind {A B : Type} (m : outcome A) (k : A -> outcome B) :
  finishes m -> (forall a, finishes (k a)) -> finishes (bind m k).
Proof.
  intros Hm Hk. destruct m as [a|e|]; simpl; [apply Hk | exact I | exact Hm].
Qed.

Lemma finishes_call {A : Type} (r : result A) : finishes (call r).
Proof. destruct r; exact I. Qed.

Lemma hwp_sections_loop_finishes (L : runtime) (ole : ole_file)
  (is_compressed : bool) (section_streams : list (list pystr)) :
  forall extracted_texts,
    finishes (hwp_sections_loop L ole is_compressed section_streams
                extracted_texts).
Proof.
  induction section_streams as [|stream_path rest IH]; intros acc; [exact I|].
  cbn [hwp_sections_loop]. apply finishes_bind; [apply finishes_call|].
  intros raw_data.
  destruct (if is_compressed then zlib_decompress L raw_data else Some raw_data)
    as [raw|]; [|apply IH].
  destruct (extract_text_from_hwp_records_total raw) as [text Htext].
  rewrite Htext. cbn [bind]. apply IH.
Qed.

Lemma parse_hwp_finishes (L : runtime) (W : world) (file_path : pystr) :
  finishes (_parse_hwp L W file_path).
Proof.
  unfold _parse_hwp. apply finishes_bind; [apply finishes_call|].
  intros is_ole. destruct is_ole; cbn [negb]; [|exact I].
  apply finishes_bind; [apply finishes_call|]. intros ole.
  apply finishes_bind.
  - destruct (ole_exists ole (lit "FileHeader")); [|exact I].
    apply finishes_bind; [apply finishes_call|]. intros; exact I.
  - intros is_compressed.
    destruct (negb (nonempty (hwp_section_streams L (ole_listdir ole))));
      [exact I|].
    apply finishes_bind; [apply hwp_sections_loop_finishes|]. intros; exact I.
Qed.

Lemma hwpx_xml_finishes (fromstring : bytes -> HwpxXml.parsed)
  (xml_data : bytes) :
  finishes (HwpxXml._extract_text_from_hwpx_xml fromstring xml_data).
Proof.
  unfold HwpxXml._extract_text_from_hwpx_xml.
  destruct (fromstring xml_data) as [root| |e]; try exact I.
  destruct (HwpxXml.namespace_search root HwpxXml.known_namespaces); exact I.
Qed.

Lemma hwpx_sections_loop_finishes (L : runtime) (zf : zip_file)
  (section_files : list pystr) :
  forall extracted_texts,
    finishes (hwpx_sections_loop L zf section_files extracted_texts).
Proof.
  induction section_files as [|f rest IH]; intros acc; [exact I|].
  cbn [hwpx_sections_loop]. apply finishes_bind; [apply finishes_call|].
  intros xml_data. apply finishes_bind; [apply hwpx_xml_finishes|].
  intros section_text. apply IH.
Qed.

Lemma parse_hwpx_finishes (L : runtime) (W : world) (file_path : pystr) :
  finishes (_parse_hwpx L W file_path).
Proof.
  unfold _parse_hwpx.
  assert (Htry : finishes (hwpx_try L W file_path)).
  { unfold hwpx_try. apply finishes_bind; [apply finishes_call|]. intros zf.
    cbv zeta.
    destruct (negb (nonempty (hwpx_section_files L (zf_namelist zf))));
      [exact I|].
    apply finishes_bind; [apply hwpx_sections_loop_finishes|]. intros; exact I. }
  destruct (hwpx_try L W file_path) as [[s|texts]|e|]; try exact I.
  - destruct e; exact I.
  - exact Htry.
Qed.

Lemma pdf_pages_loop_finishes (pages : list (result (option pystr))) :
  forall extracted_texts, finishes (pdf_pages_loop pages extracted_texts).
Proof.
  induction pages as [|page pages IH]; intros acc; [exact I|].
  cbn [pdf_pages_loop]. apply finishes_bind; [apply finishes_call|].
  intros [[|c t]|]; apply IH.
Qed.

Lemma parse_pdf_finishes (W : world) (file_path : pystr) :
  finishes (_parse_pdf W file_path).
Proof.
  unfold _parse_pdf.
  assert (Hrun : finishes (pdf <- call (pdfplumber_open W file_path) ;;
                           pdf_pages_loop (pdf_pages pdf) [])).
  { apply finishes_bind; [apply finishes_call|]. intros pdf.
    apply pdf_pages_loop_finishes. }
  destruct (pdf <- call (pdfplumber_open W file_path) ;;
            pdf_pages_loop (pdf_pages pdf) []) as [[|t ts]|e|];
    try exact I. exact Hrun.
Qed.

Lemma dispatch_finishes (L : runtime) (W : world) (ext file_path : pystr) :
  finishes (dispatch L W ext file_path).
Proof.
  unfold dispatch.
  destruct (str_eqb ext (lit ".hwp")); [apply parse_hwp_finishes|].
  destruct (str_eqb ext (lit ".hwpx")); [apply parse_hwpx_finishes|].
  destruct (str_eqb ext (lit ".pdf")); [apply parse_pdf_finishes|].
  exact I.
Qed.

Lemma str_eqb_eq (a b : pystr) : str_eqb a b = true -> a = b.
Proof.
  unfold str_eqb. destruct (list_eq_dec Z.eq_dec a b); [auto | discriminate].
Qed.

Lemma dispatch_supported (L : runtime) (W : world) (ext file_path : pystr) :
  existsb (str_eqb ext) SUPPORTED_EXTENSIONS = true ->
  (ext = lit ".hwp"
   /\ dispatch L W ext file_path = _parse_hwp L W file_path) \/
  (ext = lit ".hwpx"
   /\ dispatch L W ext file_path = _parse_hwpx L W file_path) \/
  (ext = lit ".pdf"
   /\ dispatch L W ext file_path = _parse_pdf W file_path).
Proof.
  intros Hsup. unfold dispatch. cbn [existsb SUPPORTED_EXTENSIONS] in Hsup.
  destruct (str_eqb ext (lit ".hwp")) eqn:E1.
  - left. split; [apply str_eqb_eq; exact E1 | reflexivity].
  - destruct (str_eqb ext (lit ".hwpx")) eqn:E2.
    + right. left. split; [apply str_eqb_eq; exact E2 | reflexivity].
    + destruct (str_eqb ext (lit ".pdf")) eqn:E3.
      * right. right. split; [apply str_eqb_eq; exact E3 | reflexivity].
      * discriminate Hsup.
Qed.

(** C1: [parse] raises [FileNotFoundError] for a path that does not exist
    and [ValueError] for an existing path whose lower-cased extension is not
    [.hwp], [.hwpx] or [.pdf]; for any other path it runs the extractor of
    the extension and returns a string: the normalized text of the
    extractor, or, when the extractor raised, a string that starts with the
    parse-error tag. *)
Theorem parse_contract :
  forall (L : runtime) (W : world) (file_path : pystr),
    let ext := str_lower L (snd (os_path_splitext L file_path)) in
    (os_path_exists W file_path = false ->
       exists msg, parse L W file_path = Raise (FileNotFoundError msg)) /\
    (os_path_exists W file_path = true ->
     existsb (str_eqb ext) SUPPORTED_EXTENSIONS = false ->
       exists msg, parse L W file_path = Raise (ValueError msg)) /\
    (os_path_exists W file_path = true ->
     existsb (str_eqb ext) SUPPORTED_EXTENSIONS = true ->
       (exists text, parse L W file_path = Return text) /\
       ((ext = lit ".hwp"
         /\ dispatch L W ext file_path = _parse_hwp L W file_path) \/
        (ext = lit ".hwpx"
         /\ dispatch L W ext file_path = _parse_hwpx L W file_path) \/
        (ext = lit ".pdf"
         /\ dispatch L W ext file_path = _parse_pdf W file_path)) /\
       (forall text, dispatch L W ext file_path = Return text ->
          parse L W file_path = Return (_clean_text text)) /\
       (forall e, dispatch L W ext file_path = Raise e ->
          exists details,
            parse L W file_path = Return (TAG_PARSE_ERROR ++ details))).
Proof.
  intros L W file_path ext. split; [|split].
  - intros Hex. unfold parse. rewrite Hex. cbn [negb]. eexists; reflexivity.
  - intros Hex Hsup. unfold parse. rewrite Hex. cbn [negb].
    fold ext. rewrite Hsup. cbn [negb]. eexists; reflexivity.
  - intros Hex Hsup.
    assert (Hparse : parse L W file_path =
                     match dispatch L W ext file_path with
                     | Return text => Return (_clean_text text)
                     | Raise e =>
                         Return (TAG_PARSE_ERROR ++ lit " " ++ MSG_PARSE_FAILED
                                 ++ ext ++ lit "): " ++ str_of_exn e)
                     | OutOfFuel => OutOfFuel
                     end).
    { unfold parse. rewrite Hex. cbn [negb]. fold ext. rewrite Hsup.
      reflexivity. }
    rewrite Hparse. split; [|split; [|split]].
    + pose proof (dispatch_finishes L W ext file_path) as Hfin.
      destruct (dispatch L W ext file_path) as [text|e|];
        [eexists; reflexivity | eexists; reflexivity | contradiction].
    + apply dispatch_supported. exact Hsup.
    + intros text Hd. rewrite Hd. reflexivity.
    + intros e Hd. rewrite Hd. eexists. reflexivity.
Qed.

(** ** The statements at concrete inputs *)

Lemma parse_contract_witness :
  (exists msg,
     parse ascii_runtime example_world (lit "/data/missing.pdf")
     = Raise (FileNotFoundError msg)) /\
  (exists msg,
     parse ascii_runtime example_world (lit "/data/notes.docx")
     = Raise (ValueError msg)) /\
  (exists text,
     parse ascii_runtime example_world (lit "/data/scan.pdf") = Return text) /\
  (exists details,
     parse ascii_runtime example_world (lit "/data/locked.hwp")
     = Return (TAG_PARSE_ERROR ++ details)).
Proof.
  split; [|split; [|split]].
  - apply (proj1 (parse_contract ascii_runtime example_world
                    (lit "/data/missing.pdf"))).
    reflexivity.
  - apply (proj1 (proj2 (parse_contract ascii_runtime example_world
                           (lit "/data/notes.docx")))); reflexivity.
  - apply (proj2 (proj2 (parse_contract ascii_runtime example_world
                           (lit "/data/scan.pdf")))); reflexivity.
  - apply (proj2 (proj2 (proj2 (proj2 (proj2
             (parse_contract ascii_runtime example_world
                (lit "/data/locked.hwp"))) eq_refl eq_refl)))
             (Exception (lit "Permission denied"))).
    reflexivity.
Defined.

Lemma record_header_fields_witness :
  unpack_from_I (serialize example_records) 0 = Return 2097219 /\
  read_record_header (serialize example_records) 0 = Return (Some (67, 2, 4)).
Proof.
  split; [reflexivity|].
  assert (Hoff : 0 <= 0) by lia.
  destruct (record_header_fields (serialize example_records) 0 2097219
              Hoff eq_refl) as [_ [_ [_ [_ [_ [_ [Hplain _]]]]]]].
  apply Hplain. vm_compute. discriminate.
Defined.

Lemma text_records_contribute_in_order_witness :
  Forall whole_record example_stream_records /\
  _extract_text_from_hwp_records (record_stream example_stream_records)
  = Return [65; 10; 90].
Proof.
  assert (Hwf : Forall whole_record example_stream_records).
  { unfold example_stream_records.
    repeat apply Forall_cons; try apply Forall_nil;
      (split; [split; [vm_compute; discriminate | vm_compute; reflexivity]
              | split; [vm_compute; reflexivity|] ]).
    - right. vm_compute. reflexivity.
    - left. vm_compute. reflexivity.
    - right. vm_compute. reflexivity.
    - right. vm_compute. reflexivity. }
  split; [exact Hwf|].
  refine (eq_trans
            (proj1 (text_records_contribute_in_order example_stream_records Hwf))
            _).
  vm_compute. reflexivity.
Defined.



Lemma record_tokenizer_terminates_witness :
  0 <= 4 /\
  record_step [x43; x00; x20; x00; xff; xff] 4 [] = Return None /\
  exists offset' texts',
    record_step [x43; x00; x20; x00; xff; xff] 0 []
    = Return (Some (offset', texts'))
    /\ 0 + 4 <= offset' <= len [x43; x00; x20; x00; xff; xff].
Proof.
  assert (H4 : 0 <= 4) by lia. assert (H0 : 0 <= 0) by lia.
  split; [exact H4|]. split.
  - apply (proj1 (proj2 (proj2 (record_tokenizer_terminates
                                  [x43; x00; x20; x00; xff; xff]) 4 [] H4))).
    reflexivity.
  - destruct (proj1 (proj2 (record_tokenizer_terminates
                              [x43; x00; x20; x00; xff; xff]) 0 [] H0))
      as [Hnone | Hsome].
    + discriminate Hnone.
    + exact Hsome.
Defined.

Lemma decode_hwp_text_unit_by_unit_witness :
  _decode_hwp_text [x00; xac; x0d; x00; x03; x00; x41; x00; x42]
  = Return [0xAC00; 10; 65] /\
  exists tail : pystr,
    _decode_hwp_text [x0d; x00; x03; x00; x41; x00; x42] = Return tail /\
    _decode_hwp_text [x00; xac; x0d; x00; x03; x00; x41; x00; x42]
    = Return ([0xAC00] ++ tail).
Proof.
  split.
  - exact (proj1 (decode_hwp_text_unit_by_unit
                    [x00; xac; x0d; x00; x03; x00; x41; x00; x42])).
  - exact (proj1 (proj2 (decode_hwp_text_unit_by_unit
                           [x00; xac; x0d; x00; x03; x00; x41; x00; x42]))
             x00 xac [x0d; x00; x03; x00; x41; x00; x42] eq_refl).
Defined.

(** * Further properties of the parser *)

(** ** The text decoder *)

Lemma bytes_pair_ind (P : bytes -> Prop) :
  P [] ->
  (forall b, P [b]) ->
  (forall b0 b1 rest, P rest -> P (b0 :: b1 :: rest)) ->
  forall data, P data.
Proof.
  intros H0 H1 H2.
  assert (H : forall data, P data /\ forall b, P (b :: data)).
  { induction data as [|b data [IH IH']]; split; auto. }
  intros data. apply H.
Qed.

Lemma spec_decode_unit_chars (code : Z) :
  0 <= code < 65536 ->
  Forall (fun c => c = 10 \/ 0x1F < c < 0x10000) (spec_decode_unit code)
  /\ len (spec_decode_unit code) <= 1.
Proof.
  intros Hcode. unfold spec_decode_unit.
  destruct (code =? 13) eqn:E13.
  - split; [repeat constructor | unfold len; simpl; lia].
  - destruct (code <=? 31) eqn:E31.
    + split; [constructor | unfold len; simpl; lia].
    + apply Z.leb_gt in E31. split; [|unfold len; simpl; lia].
      constructor; [right; lia | constructor].
Qed.

(** The decoded text holds no character at or below U+001F other than the
    newline (U+007F and U+0080 to U+009F pass through as characters), only
    characters of the Basic Multilingual Plane, and at most one character
    per two octets of payload. *)
Theorem decode_hwp_text_output :
  forall data : bytes,
    exists text : pystr,
      _decode_hwp_text data = Return text /\
      Forall (fun c => c = 10 \/ 0x1F < c < 0x10000) text /\
      2 * len text <= len data.
Proof.
  intros data. exists (spec_decode data).
  split; [apply decode_hwp_text_eq|].
  induction data as [|b|b0 b1 rest [IHc IHl]] using bytes_pair_ind.
  - split; [constructor | unfold len; simpl; lia].
  - split; [constructor | unfold len; simpl; lia].
  - unfold spec_decode in *. cbn [code_units flat_map].
    destruct (spec_decode_unit_chars (le16 b0 b1) (le16_range b0 b1))
      as [Hc Hl].
    split.
    + apply Forall_app. split; assumption.
    + rewrite len_app. unfold len in *. cbn [List.length]. lia.
Qed.

(** Decoding is compositional at unit boundaries: behind a payload of even
    length, a second payload is decoded as on its own. *)
Theorem decode_hwp_text_app :
  forall a b : bytes,
    Z.even (len a) = true ->
    exists ta tb : pystr,
      _decode_hwp_text a = Return ta /\
      _decode_hwp_text b = Return tb /\
      _decode_hwp_text (a ++ b) = Return (ta ++ tb).
Proof.
  intros a b Heven. exists (spec_decode a), (spec_decode b).
  rewrite !decode_hwp_text_eq. repeat split. f_equal.
  induction a as [|x|b0 b1 rest IH] using bytes_pair_ind.
  - reflexivity.
  - discriminate Heven.
  - unfold spec_decode in *. cbn [app code_units flat_map].
    rewrite <- app_assoc. f_equal. apply IH.
    unfold len in *. cbn [List.length] in Heven.
    rewrite !Nat2Z.inj_succ in Heven.
    rewrite <- Z.add_1_r, <- Z.add_1_r, <- Z.add_assoc in Heven.
    change (1 + 1) with 2 in Heven.
    rewrite Z.even_add in Heven. cbn in Heven.
    destruct (Z.even (Z.of_nat (Datatypes.length rest))); [reflexivity|discriminate].
Qed.

(** ** The record tokenizer on built records *)

Lemma read_record_header_build (pre post : bytes) (r : hwp_record) :
  len (rec_data r) < 2 ^ 32 ->
  exists hdr : bytes,
    build r = hdr ++ rec_data r /\
    len hdr = (if len (rec_data r) >=? 0xFFF then 8 else 4) /\
    read_record_header (pre ++ build r ++ post) (len pre) =
      Return (Some (Z.land (rec_tag_id r) 0x3FF, len (rec_data r),
                    len pre + len hdr)).
Proof.
  intros Hsize. pose proof (len_nonneg (rec_data r)) as Hnn.
  pose proof (len_nonneg pre) as Hpre.
  set (d := rec_data r) in *.
  destruct (build_cases r) as [[Hbig E]|[Hsmall E]];
    fold d in Hbig || fold d in Hsmall; fold d in E; rewrite E.
  - set (h := built_header (rec_tag_id r) (rec_level r) 4095).
    assert (Hh : 0 <= h < 2 ^ 32) by (apply built_header_range; lia).
    exists (pack_I h ++ pack_I (len d)).
    replace (len d >=? 4095) with true by (symmetry; apply Z.geb_le; lia).
    split; [rewrite <- app_assoc; reflexivity|]. split; [reflexivity|].
    rewrite (read_record_header_escape _ _ h (len d)).
    + unfold h. rewrite built_header_tag_id.
      rewrite len_app, !len_pack_I.
      replace (len pre + (4 + 4)) with (len pre + 8) by lia. reflexivity.
    + lia.
    + rewrite <- !app_assoc. apply unpack_from_I_pack_I. exact Hh.
    + unfold h. apply built_header_size. lia.
    + replace (len pre + 4) with (len (pre ++ pack_I h))
        by (rewrite len_app, len_pack_I; reflexivity).
      replace (pre ++ (pack_I h ++ pack_I (len d) ++ d) ++ post)
        with ((pre ++ pack_I h) ++ pack_I (len d) ++ (d ++ post))
        by (rewrite <- !app_assoc; reflexivity).
      apply unpack_from_I_pack_I. lia.
  - set (h := built_header (rec_tag_id r) (rec_level r) (len d)).
    assert (Hh : 0 <= h < 2 ^ 32) by (apply built_header_range; lia).
    assert (Hsz : header_size h = len d) by (apply built_header_size; lia).
    exists (pack_I h).
    replace (len d >=? 4095) with false
      by (symmetry; rewrite Z.geb_leb; apply Z.leb_gt; lia).
    split; [reflexivity|]. split; [reflexivity|].
    rewrite (read_record_header_plain _ _ h).
    + rewrite Hsz. unfold h. rewrite built_header_tag_id.
      rewrite len_pack_I. reflexivity.
    + lia.
    + rewrite <- !app_assoc. apply unpack_from_I_pack_I. exact Hh.
    + rewrite Hsz. lia.
Qed.

(** The tokenizer reads back what the serializer wrote, short and escaped
    sizes alike: at a built record it finds the tag, the payload length and
    the payload itself, four octets behind the record start for a payload
    under 4095 octets and eight octets behind it otherwise. *)
Theorem tokenizer_reads_built_record :
  forall (pre post : bytes) (r : hwp_record),
    len (rec_data r) < 2 ^ 32 ->
    let data := pre ++ build r ++ post in
    let payload := len pre + (if len (rec_data r) >=? 0xFFF then 8 else 4) in
    read_record_header data (len pre) =
      Return (Some (Z.land (rec_tag_id r) 0x3FF, len (rec_data r), payload)) /\
    slice data payload (payload + len (rec_data r)) = rec_data r /\
    payload + len (rec_data r) = len pre + len (build r).
Proof.
  intros pre post r Hsize data payload.
  destruct (read_record_header_build pre post r Hsize) as [hdr [E [Hlen Hrd]]].
  unfold payload, data. rewrite <- Hlen. split; [exact Hrd|].
  rewrite E. split.
  - replace (pre ++ (hdr ++ rec_data r) ++ post)
      with ((pre ++ hdr) ++ rec_data r ++ post)
      by (rewrite <- !app_assoc; reflexivity).
    replace (len pre + len hdr) with (len (pre ++ hdr))
      by (rewrite len_app; reflexivity).
    apply slice_middle.
  - rewrite len_app. lia.
Qed.







(** ** The PDF page extractor on failures *)

Lemma pdf_pages_loop_nonempty (pages : list (result (option pystr))) :
  forall acc ts,
    Forall (fun t : pystr => t <> []) acc ->
    pdf_pages_loop pages acc = Return ts ->
    Forall (fun t : pystr => t <> []) ts.
Proof.
  induction pages as [|page pages IH]; intros acc ts Hacc Hrun.
  - simpl in Hrun. injection Hrun as <-. exact Hacc.
  - cbn [pdf_pages_loop] in Hrun. destruct page as [[[|c t]|]|e];
      cbn [call bind] in Hrun; try discriminate;
      try (apply (IH acc ts Hacc Hrun)).
    apply (IH (acc ++ [c :: t]) ts); [|exact Hrun].
    apply Forall_app. split; [exact Hacc|]. constructor; [discriminate|constructor].
Qed.

Lemma join_nonempty (sep : pystr) (t : pystr) (ts : list pystr) :
  t <> [] -> join sep (t :: ts) <> [].
Proof.
  intros Ht. destruct t as [|c t]; [congruence|].
  destruct ts; simpl; discriminate.
Qed.

(** The page extractor always returns, and never the empty string: it
    gives an error sentinel, the manual-check sentinel, or page text. *)
Theorem parse_pdf_never_empty :
  forall (W : world) (file_path : pystr),
    exists text : pystr,
      _parse_pdf W file_path = Return text /\ text <> [].
Proof.
  intros W file_path. unfold _parse_pdf.
  pose proof (parse_pdf_finishes W file_path) as Hfin. unfold _parse_pdf in Hfin.
  destruct (pdf <- call (pdfplumber_open W file_path) ;;
            pdf_pages_loop (pdf_pages pdf) []) as [[|t ts]|e|] eqn:Erun.
  - eexists. split; [reflexivity | discriminate].
  - eexists. split; [reflexivity|]. apply join_nonempty.
    destruct (pdfplumber_open W file_path) as [pdf|e]; cbn [call bind] in Erun;
      [|discriminate].
    pose proof (pdf_pages_loop_nonempty (pdf_pages pdf) [] (t :: ts)
                  (Forall_nil _) Erun) as Hne.
    inversion Hne; assumption.
  - eexists. split; [reflexivity | discriminate].
  - contradiction.
Qed.

Lemma pdf_pages_loop_raises (texts : list (option pystr)) (e : exn)
  (rest : list (result (option pystr))) :
  forall acc, pdf_pages_loop (map Ok texts ++ Err e :: rest) acc = Raise e.
Proof.
  induction texts as [|t texts IH]; intros acc.
  - reflexivity.
  - cbn [map app pdf_pages_loop call bind]. destruct t as [[|c t]|]; apply IH.
Qed.

(** A PDF that does not open, or one page of which fails to yield its text,
    gives the error sentinel with the message of the exception; the text of
    the pages before the failing one is not returned. *)
Theorem parse_pdf_failure_discards_text :
  forall (W : world) (file_path : pystr) (e : exn),
    (pdfplumber_open W file_path = Err e ->
       _parse_pdf W file_path = Return (MSG_PDF_OPEN ++ str_of_exn e)) /\
    (forall (pdf : pdf_file) (texts : list (option pystr))
            (rest : list (result (option pystr))),
       pdfplumber_open W file_path = Ok pdf ->
       pdf_pages pdf = map Ok texts ++ Err e :: rest ->
       _parse_pdf W file_path = Return (MSG_PDF_OPEN ++ str_of_exn e)).
Proof.
  intros W file_path e. split.
  - intros Hopen. unfold _parse_pdf. rewrite Hopen. reflexivity.
  - intros pdf texts rest Hopen Hpages. unfold _parse_pdf.
    rewrite Hopen. cbn [call bind]. rewrite Hpages, pdf_pages_loop_raises.
    reflexivity.
Qed.

(** ** The archive extractor: selection and failures *)



Lemma hwpx_sections_loop_raises (L : runtime) (zf : zip_file)
  (fs1 : list pystr) (f : pystr) (fs2 : list pystr) (e : exn) :
  forall (datas : list bytes) (texts acc : list pystr),
    map (zf_read zf) fs1 = map Ok datas ->
    map (HwpxXml._extract_text_from_hwpx_xml (ET_fromstring L)) datas
    = map Return texts ->
    (xml_data <- call (zf_read zf f) ;;
     HwpxXml._extract_text_from_hwpx_xml (ET_fromstring L) xml_data)
    = Raise e ->
    hwpx_sections_loop L zf (fs1 ++ f :: fs2) acc = Raise e.
Proof.
  induction fs1 as [|g fs1 IH]; intros datas texts acc Hreads Hx Hf.
  - cbn [app hwpx_sections_loop].
    destruct (zf_read zf f) as [d|e']; cbn [call bind] in *.
    + rewrite Hf. reflexivity.
    + injection Hf as ->. reflexivity.
  - destruct datas as [|d datas]; [discriminate|].
    destruct texts as [|t texts]; [discriminate|].
    cbn [map] in Hreads, Hx. injection Hreads as Hg Hrest.
    injection Hx as Ht Htexts.
    cbn [app hwpx_sections_loop]. rewrite Hg. cbn [call bind].
    rewrite Ht. cbn [bind]. apply (IH datas texts); assumption.
Qed.

(** The first failure decides the result of the archive extractor.  When
    the archive does not open, or when, behind entries that were read and
    whose texts were extracted, an entry does not read or [ET.fromstring]
    raises on it something else than a parse error, the exception [e] of
    that failure gives the invalid-file sentinel if it is a [BadZipFile] and
    leaves the extractor as it is otherwise; the texts of the entries before
    are not returned. *)
Theorem parse_hwpx_failures :
  forall (L : runtime) (W : world) (file_path : pystr) (e : exn),
    let on_failure :=
      match e with
      | BadZipFile _ => Return MSG_INVALID_HWPX
      | _ => Raise e
      end in
    (ZipFile W file_path = Err e -> _parse_hwpx L W file_path = on_failure) /\
    (forall (zf : zip_file) (fs1 : list pystr) (f : pystr) (fs2 : list pystr)
            (datas : list bytes) (texts : list pystr),
       ZipFile W file_path = Ok zf ->
       hwpx_section_files L (zf_namelist zf) = fs1 ++ f :: fs2 ->
       map (zf_read zf) fs1 = map Ok datas ->
       map (HwpxXml._extract_text_from_hwpx_xml (ET_fromstring L)) datas
       = map Return texts ->
       (zf_read zf f = Err e \/
        exists xml_data,
          zf_read zf f = Ok xml_data /\
          ET_fromstring L xml_data = HwpxXml.Failed e) ->
       _parse_hwpx L W file_path = on_failure).
Proof.
  intros L W file_path e on_failure. split.
  - intros Hopen. unfold _parse_hwpx, hwpx_try. rewrite Hopen.
    cbn [call bind]. destruct e; reflexivity.
  - intros zf fs1 f fs2 datas texts Hopen Hfiles Hreads Hx Hf.
    assert (Hentry : (xml_data <- call (zf_read zf f) ;;
                      HwpxXml._extract_text_from_hwpx_xml (ET_fromstring L)
                        xml_data) = Raise e).
    { destruct Hf as [Hf | [d [Hf Hparse]]]; rewrite Hf; cbn [call bind].
      - reflexivity.
      - unfold HwpxXml._extract_text_from_hwpx_xml. rewrite Hparse.
        reflexivity. }
    unfold _parse_hwpx, hwpx_try. rewrite Hopen. cbn [call bind].
    rewrite Hfiles.
    replace (negb (nonempty (fs1 ++ f :: fs2))) with false
      by (destruct fs1; reflexivity).
    rewrite (hwpx_sections_loop_raises L zf fs1 f fs2 e datas texts []
               Hreads Hx Hentry).
    cbn [bind]. destruct e; reflexivity.
Qed.

(** ** The legacy container extractor *)







(** ** The sort key of a section stream *)

Lemma match_digits_end_all (L : runtime) (d : pystr) :
  d <> [] ->
  Forall (fun c => is_decimal L c = true) d ->
  match_digits_end L d = Some d.
Proof.
  induction d as [|c d IH]; intros Hne Hd; [congruence|].
  inversion Hd as [|c' d' Hc Hd']; subst.
  cbn [match_digits_end]. rewrite Hc.
  destruct d as [|c2 d].
  - reflexivity.
  - rewrite IH by (congruence || assumption). reflexivity.
Qed.

Lemma re_search_digits_end_suffix (L : runtime) (pre d : pystr) :
  Forall (fun c => is_decimal L c = false) pre ->
  d <> [] ->
  Forall (fun c => is_decimal L c = true) d ->
  re_search_digits_end L (pre ++ d) = Some d.
Proof.
  intros Hpre Hne Hd. induction Hpre as [|c pre Hc Hpre IH].
  - cbn [app]. destruct d as [|c d]; [congruence|].
    cbn [re_search_digits_end].
    rewrite (match_digits_end_all L (c :: d) Hne Hd). reflexivity.
  - cbn [app re_search_digits_end match_digits_end]. rewrite Hc. exact IH.
Qed.

(** The sort key of a stream whose last path component is a name without
    digits followed by a number is that number, read in base ten. *)
Theorem section_key_is_the_number :
  forall (L : runtime) (dir : list pystr) (name d : pystr),
    Forall (fun c => is_decimal L c = false) name ->
    d <> [] ->
    Forall (fun c => is_decimal L c = true) d ->
    section_key L (dir ++ [name ++ d]) = int_of_digits L d.
Proof.
  intros L dir name d Hname Hne Hd. unfold section_key.
  rewrite last_last.
  rewrite (re_search_digits_end_suffix L name d Hname Hne Hd). reflexivity.
Qed.

(** ** The text normalizer: stripping *)

Lemma lstrip_starts_clean (s : pystr) : starts_clean (lstrip s).
Proof.
  induction s as [|c s IH]; simpl; [exact I|].
  destruct (isspace c) eqn:E; [exact IH | simpl; exact E].
Qed.

Lemma lstrip_id (s : pystr) : starts_clean s -> lstrip s = s.
Proof.
  destruct s as [|c s]; simpl; intros H; [reflexivity|].
  rewrite H. reflexivity.
Qed.

Lemma lstrip_suffix (s : pystr) : exists w, s = w ++ lstrip s.
Proof.
  induction s as [|c s [w IH]]; [exists []; reflexivity|].
  simpl. destruct (isspace c).
  - exists (c :: w). simpl. f_equal. exact IH.
  - exists []. reflexivity.
Qed.

Lemma rstrip_prefix (s : pystr) : exists w, s = rstrip s ++ w.
Proof.
  unfold rstrip. destruct (lstrip_suffix (rev s)) as [w H].
  exists (rev w). rewrite <- rev_app_distr, <- H, rev_involutive. reflexivity.
Qed.

Lemma rstrip_starts_clean (s : pystr) : starts_clean s -> starts_clean (rstrip s).
Proof.
  intros H. destruct (rstrip_prefix s) as [w E].
  destruct (rstrip s) as [|c r]; [exact I|].
  rewrite E in H. exact H.
Qed.

Lemma stripped_iff (s : pystr) :
  stripped s <-> starts_clean s /\ starts_clean (rev s).
Proof.
  unfold stripped, strip. split.
  - intros H. split.
    + rewrite <- H. apply rstrip_starts_clean. apply lstrip_starts_clean.
    + rewrite <- H. unfold rstrip. rewrite rev_involutive.
      apply lstrip_starts_clean.
  - intros [H1 H2]. rewrite (lstrip_id s H1). unfold rstrip.
    rewrite (lstrip_id (rev s) H2). apply rev_involutive.
Qed.

Lemma strip_stripped (s : pystr) : stripped (strip s).
Proof.
  apply stripped_iff. unfold strip. split.
  - apply rstrip_starts_clean. apply lstrip_starts_clean.
  - unfold rstrip. rewrite rev_involutive. apply lstrip_starts_clean.
Qed.

Lemma stripped_rev (s : pystr) : stripped s -> stripped (rev s).
Proof.
  intros H. apply stripped_iff in H. destruct H as [H1 H2].
  apply stripped_iff. rewrite rev_involutive. split; assumption.
Qed.

Lemma stripped_nil : stripped [].
Proof. reflexivity. Qed.

Lemma stripped_head (c : Z) (s : pystr) : stripped (c :: s) -> isspace c = false.
Proof. intros H. apply stripped_iff in H. exact (proj1 H). Qed.

Lemma In_lstrip (c : Z) (s : pystr) : In c (lstrip s) -> In c s.
Proof.
  destruct (lstrip_suffix s) as [w E]. intros H. rewrite E.
  apply in_or_app. right. exact H.
Qed.

Lemma In_strip (c : Z) (s : pystr) : In c (strip s) -> In c s.
Proof.
  unfold strip. intros H. apply In_lstrip.
  destruct (rstrip_prefix (lstrip s)) as [w E]. rewrite E.
  apply in_or_app. left. exact H.
Qed.

(** ** The text normalizer: lines *)

Lemma split_lines_nil : split_lines [] = [[]].
Proof. reflexivity. Qed.

Lemma split_lines_aux_cur (s : pystr) :
  forall cur,
    split_lines_aux cur s =
      match split_lines_aux [] s with
      | h :: t => (rev cur ++ h) :: t
      | [] => [rev cur]
      end.
Proof.
  induction s as [|c s IH]; intros cur.
  - simpl. rewrite app_nil_r. reflexivity.
  - cbn [split_lines_aux]. destruct (c =? 10).
    + simpl. rewrite app_nil_r. reflexivity.
    + rewrite (IH (c :: cur)), (IH [c]).
      destruct (split_lines_aux [] s) as [|h t]; simpl.
      * reflexivity.
      * rewrite <- app_assoc. reflexivity.
Qed.

Lemma split_lines_not_nil (s : pystr) : split_lines s <> [].
Proof.
  unfold split_lines. generalize (@nil Z) as cur.
  induction s as [|c s IH]; intros cur; simpl; [discriminate|].
  destruct (c =? 10); [discriminate | apply IH].
Qed.

Lemma split_lines_newline (s : pystr) :
  split_lines (10 :: s) = [] :: split_lines s.
Proof. reflexivity. Qed.

Lemma split_lines_char (c : Z) (s : pystr) :
  c <> 10 ->
  exists h t, split_lines s = h :: t /\ split_lines (c :: s) = (c :: h) :: t.
Proof.
  intros Hc. unfold split_lines. cbn [split_lines_aux].
  apply Z.eqb_neq in Hc. rewrite Hc. rewrite (split_lines_aux_cur s [c]).
  pose proof (split_lines_not_nil s) as Hne. unfold split_lines in Hne.
  destruct (split_lines_aux [] s) as [|h t]; [congruence|].
  exists h, t. split; reflexivity.
Qed.

Lemma join_cons (x : pystr) (l : list pystr) :
  l <> [] -> join [10] (x :: l) = x ++ 10 :: join [10] l.
Proof. destruct l; [congruence | reflexivity]. Qed.

Lemma join_split_lines (s : pystr) : join [10] (split_lines s) = s.
Proof.
  induction s as [|c s IH]; [reflexivity|].
  destruct (Z.eq_dec c 10) as [->|Hc].
  - rewrite split_lines_newline, join_cons by apply split_lines_not_nil.
    rewrite IH. reflexivity.
  - destruct (split_lines_char c s Hc) as [h [t [E1 E2]]].
    rewrite E2. rewrite E1 in IH.
    destruct t as [|l t].
    + simpl in *. rewrite IH. reflexivity.
    + rewrite join_cons in IH by discriminate.
      rewrite join_cons by discriminate. cbn [app]. rewrite IH. reflexivity.
Qed.

Lemma split_lines_no_newline (s : pystr) :
  Forall (fun l => ~ In 10 l) (split_lines s).
Proof.
  induction s as [|c s IH]; [repeat constructor; auto|].
  destruct (Z.eq_dec c 10) as [->|Hc].
  - rewrite split_lines_newline. constructor; [auto | exact IH].
  - destruct (split_lines_char c s Hc) as [h [t [E1 E2]]].
    rewrite E2. rewrite E1 in IH. inversion IH; subst.
    constructor; [|assumption]. intros [H|H]; [congruence | auto].
Qed.

Lemma split_lines_line (l : pystr) (s : pystr) :
  ~ In 10 l -> split_lines (l ++ 10 :: s) = l :: split_lines s.
Proof.
  induction l as [|c l IH]; intros Hl; [reflexivity|].
  assert (Hc : c <> 10) by (intros ->; apply Hl; left; reflexivity).
  assert (Hl' : ~ In 10 l) by (intros H; apply Hl; right; exact H).
  destruct (split_lines_char c (l ++ 10 :: s) Hc) as [h [t [E1 E2]]].
  cbn [app]. rewrite E2. rewrite (IH Hl') in E1. injection E1 as <- <-.
  reflexivity.
Qed.

Lemma split_lines_single (l : pystr) : ~ In 10 l -> split_lines l = [l].
Proof.
  induction l as [|c l IH]; intros Hl; [reflexivity|].
  assert (Hc : c <> 10) by (intros ->; apply Hl; left; reflexivity).
  assert (Hl' : ~ In 10 l) by (intros H; apply Hl; right; exact H).
  destruct (split_lines_char c l Hc) as [h [t [E1 E2]]].
  rewrite E2. rewrite (IH Hl') in E1. injection E1 as <- <-. reflexivity.
Qed.

Lemma split_lines_join (ls : list pystr) :
  ls <> [] ->
  Forall (fun l => ~ In 10 l) ls ->
  split_lines (join [10] ls) = ls.
Proof.
  induction ls as [|l ls IH]; intros Hne Hls; [congruence|].
  inversion Hls as [|l' ls' Hl Hrest]; subst.
  destruct ls as [|l2 ls].
  - simpl. apply split_lines_single. exact Hl.
  - rewrite join_cons by discriminate.
    rewrite split_lines_line by exact Hl.
    rewrite IH by (discriminate || assumption). reflexivity.
Qed.

Lemma join_snoc (ls : list pystr) (x : pystr) :
  ls <> [] -> join [10] (ls ++ [x]) = join [10] ls ++ 10 :: x.
Proof.
  induction ls as [|l ls IH]; intros Hne; [congruence|].
  destruct ls as [|l2 ls].
  - reflexivity.
  - cbn [app]. rewrite (join_cons l) by discriminate.
    rewrite (join_cons l (l2 :: ls)) by discriminate.
    change ((l2 :: ls) ++ [x]) with ((l2 :: ls) ++ [x]).
    rewrite <- app_assoc. cbn [app]. f_equal. f_equal.
    apply IH. discriminate.
Qed.

Lemma rev_join (ls : list pystr) :
  rev (join [10] ls) = join [10] (rev (map (@rev Z) ls)).
Proof.
  induction ls as [|l ls IH]; [reflexivity|].
  destruct ls as [|l2 ls].
  - simpl. reflexivity.
  - rewrite join_cons by discriminate. rewrite rev_app_distr.
    cbn [rev map] in *. rewrite IH. symmetry. etransitivity.
    + apply join_snoc.
      intros H. apply app_eq_nil in H. destruct H; discriminate.
    + rewrite <- app_assoc. reflexivity.
Qed.

Lemma split_lines_rev (s : pystr) :
  split_lines (rev s) = rev (map (@rev Z) (split_lines s)).
Proof.
  rewrite <- (join_split_lines s) at 1. rewrite rev_join.
  apply split_lines_join.
  - intros H. apply (f_equal (@rev _)) in H. rewrite rev_involutive in H.
    apply map_eq_nil in H. exact (split_lines_not_nil s H).
  - apply Forall_rev. apply Forall_map.
    eapply Forall_impl; [|apply split_lines_no_newline].
    intros l Hl H. apply Hl. apply in_rev. exact H.
Qed.

Lemma lstrip_lines (z : pystr) :
  Forall stripped (split_lines z) -> Forall stripped (split_lines (lstrip z)).
Proof.
  induction z as [|c z IH]; intros H; [exact H|].
  cbn [lstrip]. destruct (isspace c) eqn:Ec; [|exact H].
  destruct (Z.eq_dec c 10) as [->|Hc].
  - rewrite split_lines_newline in H. inversion H; subst. apply IH. assumption.
  - destruct (split_lines_char c z Hc) as [h [t [E1 E2]]].
    rewrite E2 in H. inversion H as [|x xs Hx Hxs]; subst.
    apply stripped_head in Hx. congruence.
Qed.

Lemma rstrip_lines (z : pystr) :
  Forall stripped (split_lines z) -> Forall stripped (split_lines (rstrip z)).
Proof.
  intros H. unfold rstrip. rewrite split_lines_rev.
  apply Forall_rev. apply Forall_map.
  assert (Hrev : Forall stripped (split_lines (rev z))).
  { rewrite split_lines_rev. apply Forall_rev. apply Forall_map.
    eapply Forall_impl; [|exact H]. intros l. apply stripped_rev. }
  eapply Forall_impl; [|apply (lstrip_lines _ Hrev)].
  intros l. apply stripped_rev.
Qed.

Lemma strip_lines (z : pystr) :
  Forall stripped (split_lines z) -> Forall stripped (split_lines (strip z)).
Proof. intros H. unfold strip. apply rstrip_lines. apply lstrip_lines. exact H. Qed.

Lemma map_strip_stripped (ls : list pystr) :
  Forall stripped ls -> map strip ls = ls.
Proof.
  induction 1 as [|l ls Hl Hls IH]; [reflexivity|].
  cbn [map]. rewrite Hl, IH. reflexivity.
Qed.

(** ** The text normalizer: runs of newlines *)

Lemma flush_newlines_min (run : nat) :
  flush_newlines run = repeat 10 (Nat.min run 2).
Proof.
  unfold flush_newlines.
  destruct run as [|[|[|run]]]; reflexivity.
Qed.

Lemma sub_newlines_repeat (m : nat) :
  forall (q : nat) (s : pystr),
    sub_newlines q (repeat 10 m ++ s) = sub_newlines (q + m) s.
Proof.
  induction m as [|m IH]; intros q s.
  - rewrite Nat.add_0_r. reflexivity.
  - cbn [repeat app sub_newlines Z.eqb Pos.eqb]. rewrite IH.
    f_equal. lia.
Qed.

Lemma sub_newlines_idem (s : pystr) :
  forall run, sub_newlines 0 (sub_newlines run s) = sub_newlines run s.
Proof.
  induction s as [|c s IH]; intros run.
  - cbn [sub_newlines]. rewrite flush_newlines_min.
    rewrite <- (app_nil_r (repeat 10 (Nat.min run 2))) at 1.
    rewrite sub_newlines_repeat. cbn [sub_newlines Nat.add].
    rewrite flush_newlines_min. f_equal. lia.
  - cbn [sub_newlines]. destruct (c =? 10) eqn:Ec; [apply IH|].
    rewrite flush_newlines_min, sub_newlines_repeat.
    cbn [sub_newlines Nat.add]. rewrite Ec, IH, flush_newlines_min.
    f_equal. f_equal. lia.
Qed.

Lemma split_lines_aux_repeat (k : nat) (cur : pystr) (s : pystr) :
  split_lines_aux cur (repeat 10 (S k) ++ s) =
    rev cur :: repeat [] k ++ split_lines_aux [] s.
Proof.
  cbn [repeat app split_lines_aux Z.eqb Pos.eqb]. f_equal.
  induction k as [|k IH]; [reflexivity|].
  cbn [repeat app split_lines_aux Z.eqb Pos.eqb rev]. f_equal. exact IH.
Qed.

Lemma Forall_repeat_nil (Q : pystr -> Prop) (k : nat) :
  Q [] -> Forall Q (repeat [] k).
Proof. intros H. induction k; simpl; constructor; assumption. Qed.

(** Collapsing runs of newlines only removes empty lines. *)
Lemma sub_newlines_lines (Q : pystr -> Prop) (s : pystr) :
  Q [] ->
  forall (run : nat) (cur : pystr),
    Forall Q (split_lines_aux cur (repeat 10 run ++ s)) ->
    Forall Q (split_lines_aux cur (sub_newlines run s)).
Proof.
  intros Hnil. induction s as [|c s IH]; intros run cur H.
  - cbn [sub_newlines]. rewrite flush_newlines_min.
    destruct run as [|run].
    + exact H.
    + rewrite split_lines_aux_repeat in H. inversion H as [|x xs Hx Hxs]; subst.
      replace (Nat.min (S run) 2) with (S (Nat.min run 1)) by lia.
      rewrite <- (app_nil_r (repeat 10 (S (Nat.min run 1)))).
      rewrite split_lines_aux_repeat. constructor; [exact Hx|].
      apply Forall_app. split; [apply Forall_repeat_nil; exact Hnil|].
      repeat constructor. exact Hnil.
  - cbn [sub_newlines]. destruct (c =? 10) eqn:Ec.
    + apply Z.eqb_eq in Ec. subst c. apply IH.
      replace (repeat 10 (S run) ++ s) with (repeat 10 run ++ 10 :: s);
        [exact H|].
      clear. induction run as [|run IHr]; [reflexivity|].
      cbn [repeat app]. rewrite IHr. reflexivity.
    + rewrite flush_newlines_min. destruct run as [|run].
      * cbn [Nat.min repeat app split_lines_aux] in *. rewrite Ec in *.
        apply (IH 0%nat (c :: cur)). exact H.
      * rewrite split_lines_aux_repeat in H.
        inversion H as [|x xs Hx Hxs]; subst.
        apply Forall_app in Hxs. destruct Hxs as [_ Hrest].
        replace (Nat.min (S run) 2) with (S (Nat.min run 1)) by lia.
        rewrite split_lines_aux_repeat. constructor; [exact Hx|].
        apply Forall_app. split; [apply Forall_repeat_nil; exact Hnil|].
        cbn [split_lines_aux] in *. rewrite Ec in *.
        apply (IH 0%nat [c]). exact Hrest.
Qed.

Lemma sub_newlines_starts_clean (s : pystr) :
  starts_clean s -> starts_clean (sub_newlines 0 s).
Proof.
  destruct s as [|c s]; intros H; [exact I|].
  cbn [sub_newlines]. destruct (c =? 10) eqn:Ec.
  - apply Z.eqb_eq in Ec. subst c. discriminate H.
  - exact H.
Qed.

Lemma sub_newlines_last (a : pystr) (c : Z) :
  c <> 10 ->
  forall run, exists x, sub_newlines run (a ++ [c]) = x ++ [c].
Proof.
  intros Hc. apply Z.eqb_neq in Hc.
  induction a as [|d a IH]; intros run.
  - cbn [app sub_newlines]. rewrite Hc. exists (flush_newlines run).
    reflexivity.
  - cbn [app sub_newlines]. destruct (d =? 10).
    + apply IH.
    + destruct (IH 0%nat) as [x Hx]. rewrite Hx.
      exists (flush_newlines run ++ d :: x).
      rewrite <- app_assoc. reflexivity.
Qed.

Lemma sub_newlines_stripped (s : pystr) :
  stripped s -> stripped (sub_newlines 0 s).
Proof.
  intros H. apply stripped_iff in H. destruct H as [H1 H2].
  apply stripped_iff. split; [apply sub_newlines_starts_clean; exact H1|].
  destruct (rev s) as [|c r] eqn:E.
  - apply (f_equal (@rev _)) in E. rewrite rev_involutive in E. subst s.
    exact I.
  - apply (f_equal (@rev _)) in E. rewrite rev_involutive in E.
    cbn [rev] in E. subst s. cbn [starts_clean] in H2.
    assert (Hc : c <> 10) by (intros ->; discriminate H2).
    destruct (sub_newlines_last (rev r) c Hc 0%nat) as [x Hx].
    rewrite Hx, rev_app_distr. exact H2.
Qed.

(** ** The text normalizer: its output and its fixed points *)

Lemma clean_text_nonempty_eq (text : pystr) :
  text <> [] ->
  _clean_text text =
    strip (join [10] (map strip (split_lines (sub_newlines 0 text)))).
Proof. destruct text; [congruence | reflexivity]. Qed.

Lemma clean_text_stripped (text : pystr) :
  stripped (_clean_text text) /\
  Forall stripped (split_lines (_clean_text text)).
Proof.
  destruct text as [|c text].
  - split; [reflexivity | repeat constructor].
  - rewrite clean_text_nonempty_eq by discriminate.
    set (ls := map strip (split_lines (sub_newlines 0 (c :: text)))).
    split; [apply strip_stripped|].
    apply strip_lines. rewrite split_lines_join.
    + unfold ls. apply Forall_map. apply Forall_forall.
      intros l _. apply strip_stripped.
    + unfold ls. intros H. apply map_eq_nil in H.
      exact (split_lines_not_nil _ H).
    + unfold ls. apply Forall_map.
      eapply Forall_impl; [|apply split_lines_no_newline].
      intros l Hl H. apply Hl. apply In_strip. exact H.
Qed.

(** The normalized text has no white space at its ends, and none at the
    ends of any of its lines. *)
Theorem clean_text_output_stripped :
  forall text : pystr,
    strip (_clean_text text) = _clean_text text /\
    Forall (fun line => strip line = line) (split_lines (_clean_text text)).
Proof. intros text. apply clean_text_stripped. Qed.

Lemma clean_text_on_stripped (text : pystr) :
  stripped text ->
  Forall stripped (split_lines text) ->
  _clean_text text = sub_newlines 0 text.
Proof.
  intros Hs Hl. destruct text as [|c text]; [reflexivity|].
  rewrite clean_text_nonempty_eq by discriminate.
  assert (Hlines : Forall stripped (split_lines (sub_newlines 0 (c :: text)))).
  { unfold split_lines.
    apply (sub_newlines_lines stripped (c :: text) stripped_nil 0%nat []).
    exact Hl. }
  rewrite (map_strip_stripped _ Hlines), join_split_lines.
  apply sub_newlines_stripped. exact Hs.
Qed.

(** On a text without white space at its ends and at the ends of its
    lines the normalizer only collapses the runs of newlines, and a second
    pass changes nothing. *)
Theorem clean_text_idempotent_on_stripped_lines :
  forall text : pystr,
    strip text = text ->
    Forall (fun line => strip line = line) (split_lines text) ->
    _clean_text text = sub_newlines 0 text /\
    _clean_text (_clean_text text) = _clean_text text.
Proof.
  intros text Hs Hl.
  assert (E : _clean_text text = sub_newlines 0 text)
    by (apply clean_text_on_stripped; assumption).
  split; [exact E|]. rewrite E.
  rewrite clean_text_on_stripped.
  - apply sub_newlines_idem.
  - apply sub_newlines_stripped. exact Hs.
  - unfold split_lines.
    apply (sub_newlines_lines stripped text stripped_nil 0%nat []). exact Hl.
Qed.

(** The normalizer reaches a fixed point with its second pass: a third
    pass changes nothing, on every text. *)
Theorem clean_text_stable_after_two_passes :
  forall text : pystr,
    _clean_text (_clean_text (_clean_text text))
    = _clean_text (_clean_text text).
Proof.
  intros text.
  destruct (clean_text_stripped text) as [Hs Hl].
  set (y := _clean_text text) in *.
  assert (E : _clean_text y = sub_newlines 0 y)
    by (apply clean_text_on_stripped; assumption).
  rewrite E. rewrite clean_text_on_stripped.
  - apply sub_newlines_idem.
  - apply sub_newlines_stripped. exact Hs.
  - unfold split_lines.
    apply (sub_newlines_lines stripped y stripped_nil 0%nat []). exact Hl.
Qed.

(** ** The normalizer on a text with a clean head *)

Lemma sub_newlines_head (a t : pystr) :
  ~ In 10 a -> sub_newlines 0 (a ++ t) = a ++ sub_newlines 0 t.
Proof.
  induction a as [|c a IH]; intros Ha; [reflexivity|].
  assert (Hc : (c =? 10) = false)
    by (apply Z.eqb_neq; intros ->; apply Ha; left; reflexivity).
  cbn [app sub_newlines]. rewrite Hc. cbn [flush_newlines Nat.leb repeat app].
  rewrite IH; [reflexivity|]. intros H. apply Ha. right. exact H.
Qed.

Lemma split_lines_head (a u : pystr) :
  ~ In 10 a ->
  exists h tl, split_lines u = h :: tl
               /\ split_lines (a ++ u) = (a ++ h) :: tl.
Proof.
  induction a as [|c a IH]; intros Ha.
  - pose proof (split_lines_not_nil u) as Hne. cbn [app].
    destruct (split_lines u) as [|h tl]; [congruence|].
    exists h, tl. split; reflexivity.
  - assert (Hc : c <> 10) by (intros ->; apply Ha; left; reflexivity).
    assert (Ha' : ~ In 10 a) by (intros H; apply Ha; right; exact H).
    destruct (IH Ha') as [h [tl [E1 E2]]].
    destruct (split_lines_char c (a ++ u) Hc) as [h' [tl' [E3 E4]]].
    rewrite E2 in E3. injection E3 as <- <-.
    exists h, tl. split; [exact E1 | exact E4].
Qed.

Lemma lstrip_app_clean (u v : pystr) :
  starts_clean v -> lstrip (u ++ v) = lstrip u ++ v.
Proof.
  intros Hv. induction u as [|c u IH]; [apply lstrip_id; exact Hv|].
  cbn [app lstrip]. destruct (isspace c); [exact IH | reflexivity].
Qed.

Lemma rstrip_app_clean (a h : pystr) :
  starts_clean (rev a) -> rstrip (a ++ h) = a ++ rstrip h.
Proof.
  intros Ha. unfold rstrip. rewrite rev_app_distr.
  rewrite lstrip_app_clean by exact Ha.
  rewrite rev_app_distr, rev_involutive. reflexivity.
Qed.

Lemma strip_app_clean (a h : pystr) :
  a <> [] -> starts_clean a -> starts_clean (rev a) ->
  strip (a ++ h) = a ++ rstrip h.
Proof.
  intros Hne H1 H2. unfold strip. rewrite lstrip_id.
  - apply rstrip_app_clean. exact H2.
  - destruct a as [|c a]; [congruence | exact H1].
Qed.

(** A head without newline and without white space at its ends stays at
    the head of the normalized text. *)
Lemma clean_text_keeps_head (a t : pystr) :
  a <> [] -> ~ In 10 a -> starts_clean a -> starts_clean (rev a) ->
  exists t', _clean_text (a ++ t) = a ++ t'.
Proof.
  intros Hne Hnl H1 H2.
  rewrite clean_text_nonempty_eq
    by (destruct a; [congruence | discriminate]).
  rewrite sub_newlines_head by exact Hnl.
  destruct (split_lines_head a (sub_newlines 0 t) Hnl) as [h [tl [_ E]]].
  rewrite E. cbn [map]. rewrite (strip_app_clean a h Hne H1 H2).
  destruct (map strip tl) as [|l ls].
  - cbn [join]. rewrite strip_app_clean by assumption.
    eexists. reflexivity.
  - rewrite join_cons by discriminate. rewrite <- app_assoc.
    rewrite strip_app_clean by assumption. eexists. reflexivity.
Qed.

(** ** The dispatcher with the extractors and the normalizer *)

Lemma parse_supported (L : runtime) (W : world) (file_path ext : pystr) :
  os_path_exists W file_path = true ->
  str_lower L (snd (os_path_splitext L file_path)) = ext ->
  existsb (str_eqb ext) SUPPORTED_EXTENSIONS = true ->
  parse L W file_path =
    match dispatch L W ext file_path with
    | Return text => Return (_clean_text text)
    | Raise e =>
        Return (TAG_PARSE_ERROR ++ lit " " ++ MSG_PARSE_FAILED ++ ext
                ++ lit "): " ++ str_of_exn e)
    | OutOfFuel => OutOfFuel
    end.
Proof.
  intros Hex Hext Hsup. unfold parse. rewrite Hex. cbn [negb].
  rewrite Hext, Hsup. reflexivity.
Qed.

(** Through [parse], a file that is no container of its format gives a
    string that starts with the parse-error tag: the invalid-file sentinel
    for [.hwp] and [.hwpx], the message of the failed opening for [.pdf]. *)
Theorem parse_corrupt_container :
  forall (L : runtime) (W : world) (file_path : pystr),
    os_path_exists W file_path = true ->
    let ext := str_lower L (snd (os_path_splitext L file_path)) in
    (ext = lit ".hwp" -> isOleFile W file_path = Ok false ->
       parse L W file_path = Return MSG_INVALID_HWP) /\
    (ext = lit ".hwpx" ->
       forall msg, ZipFile W file_path = Err (BadZipFile msg) ->
       parse L W file_path = Return MSG_INVALID_HWPX) /\
    (ext = lit ".pdf" ->
       forall e, pdfplumber_open W file_path = Err e ->
       exists details,
         parse L W file_path = Return (TAG_PARSE_ERROR ++ details)).
Proof.
  intros L W file_path Hex ext. split; [|split].
  - intros Hext His.
    rewrite (parse_supported L W file_path (lit ".hwp") Hex Hext eq_refl).
    unfold dispatch, _parse_hwp. cbn [str_eqb]. rewrite His. reflexivity.
  - intros Hext msg Hopen.
    rewrite (parse_supported L W file_path (lit ".hwpx") Hex Hext eq_refl).
    unfold dispatch, _parse_hwpx, hwpx_try. rewrite Hopen. reflexivity.
  - intros Hext e Hopen.
    rewrite (parse_supported L W file_path (lit ".pdf") Hex Hext eq_refl).
    unfold dispatch, _parse_pdf. rewrite Hopen.
    change (match (if str_eqb (lit ".pdf") (lit ".hwp") then _ else _) with
            | Return text => _ | Raise e0 => _ | OutOfFuel => _ end)
      with (@Return pystr (_clean_text (MSG_PDF_OPEN ++ str_of_exn e))).
    set (head := TAG_PARSE_ERROR
                 ++ [32; 80; 68; 70; 32; 54028; 51068; 51012; 32; 50676; 32;
                     49688; 32; 50630; 49845; 45768; 45796; 58]).
    change (MSG_PDF_OPEN ++ str_of_exn e)
      with (head ++ 32 :: str_of_exn e).
    destruct (clean_text_keeps_head head (32 :: str_of_exn e)) as [t' Ht'].
    + discriminate.
    + vm_compute. intuition discriminate.
    + reflexivity.
    + reflexivity.
    + rewrite Ht'. unfold head. rewrite <- app_assoc. eexists. reflexivity.
Qed.

(** Through [parse], a PDF that opens and whose pages all have no text
    gives exactly the manual-check sentinel: the normalizer leaves it as it
    is. *)
Theorem parse_scanned_pdf :
  forall (L : runtime) (W : world) (file_path : pystr) (pdf : pdf_file)
         (texts : list (option pystr)),
    os_path_exists W file_path = true ->
    str_lower L (snd (os_path_splitext L file_path)) = lit ".pdf" ->
    pdfplumber_open W file_path = Ok pdf ->
    pdf_pages pdf = map Ok texts ->
    forallb page_is_empty texts = true ->
    parse L W file_path = Return MSG_MANUAL_CHECK.
Proof.
  intros L W file_path pdf texts Hex Hext Hopen Hpages Hempty.
  rewrite (parse_supported L W file_path (lit ".pdf") Hex Hext eq_refl).
  change (dispatch L W (lit ".pdf") file_path) with (_parse_pdf W file_path).
  unfold _parse_pdf. rewrite Hopen. cbn [call bind].
  rewrite Hpages, pdf_pages_loop_spec.
  rewrite (nonempty_page_texts_nil texts Hempty). reflexivity.
Qed.

(** When the extractor of a supported file returns, the string [parse]
    returns is normalized: no white space at its ends nor at the ends of any
    of its lines. *)
Theorem parse_output_normalized :
  forall (L : runtime) (W : world) (file_path raw : pystr),
    os_path_exists W file_path = true ->
    let ext := str_lower L (snd (os_path_splitext L file_path)) in
    existsb (str_eqb ext) SUPPORTED_EXTENSIONS = true ->
    dispatch L W ext file_path = Return raw ->
    exists text,
      parse L W file_path = Return text /\
      strip text = text /\
      Forall (fun line => strip line = line) (split_lines text).
Proof.
  intros L W file_path raw Hex ext Hsup Hraw.
  exists (_clean_text raw). split.
  - rewrite (parse_supported L W file_path ext Hex eq_refl Hsup), Hraw.
    reflexivity.
  - apply clean_text_stripped.
Qed.

(** ** [get_file_info] and [parse] *)

(** [get_file_info] tells what [parse] will do: [parse] returns a string
    exactly when the info says the file exists and is supported, and raises
    [FileNotFoundError] exactly when it says the file does not exist.  For a
    path that does not exist the info is returned with size 0, without
    asking for the size. *)
Theorem get_file_info_predicts_parse :
  forall (L : runtime) (W : world) (os_path_basename : pystr -> pystr)
         (os_path_getsize : pystr -> result Z) (file_path : pystr),
    (forall info,
       get_file_info L W os_path_basename os_path_getsize file_path
       = Return info ->
       ((exists text, parse L W file_path = Return text) <->
        info_exists info = true /\ supported info = true) /\
       ((exists msg, parse L W file_path = Raise (FileNotFoundError msg)) <->
        info_exists info = false)) /\
    (os_path_exists W file_path = false ->
       exists info,
         get_file_info L W os_path_basename os_path_getsize file_path
         = Return info /\ size_bytes info = 0 /\ info_exists info = false).
Proof.
  intros L W bn gs file_path. split.
  - intros info Hinfo. unfold get_file_info in Hinfo.
    assert (Hfields : info_exists info = os_path_exists W file_path /\
                      supported info =
                        existsb (str_eqb (str_lower L
                                   (snd (os_path_splitext L file_path))))
                                SUPPORTED_EXTENSIONS).
    { destruct (os_path_exists W file_path).
      - destruct (gs file_path) as [n|e]; cbn [call bind] in Hinfo;
          [|discriminate].
        injection Hinfo as <-. split; reflexivity.
      - cbn [bind] in Hinfo. injection Hinfo as <-. split; reflexivity. }
    destruct Hfields as [-> ->]. unfold parse.
    pose proof (dispatch_finishes L W
                  (str_lower L (snd (os_path_splitext L file_path)))
                  file_path) as Hfin.
    destruct (os_path_exists W file_path); cbn [negb];
      [destruct (existsb (str_eqb (str_lower L
                   (snd (os_path_splitext L file_path)))) SUPPORTED_EXTENSIONS);
       cbn [negb];
       [destruct (dispatch L W _ file_path) as [text|e|];
        [| |contradiction]|]|];
      repeat match goal with
             | |- _ /\ _ => split
             | |- _ <-> _ => split
             | |- _ -> _ => intro
             | H : exists _, _ |- _ => destruct H
             | H : _ /\ _ |- _ => destruct H
             end;
      try discriminate; try reflexivity; eexists; reflexivity.
  - intros Hex. unfold get_file_info. rewrite Hex. cbn [bind].
    eexists. split; [reflexivity|]. split; reflexivity.
Qed.

(** ** The text of a section XML *)

Lemma local_name_of_t (ns : pystr) :
  HwpxXml.local_name (lit "{" ++ ns ++ lit "}t") = lit "t".
Proof.
  unfold HwpxXml.local_name.
  replace (existsb (Z.eqb 125) (lit "{" ++ ns ++ lit "}t")) with true.
  - rewrite !rev_app_distr. reflexivity.
  - symmetry. rewrite !existsb_app. cbn. rewrite orb_true_r. reflexivity.
Qed.

Lemma tag_t_injective (n1 n2 : pystr) :
  lit "{" ++ n1 ++ lit "}t" = lit "{" ++ n2 ++ lit "}t" -> n1 = n2.
Proof.
  intros H. apply app_inv_head in H. apply app_inv_tail in H. exact H.
Qed.

Lemma In_element_texts (t : pystr) (elements : list HwpxXml.element) :
  In t (HwpxXml.element_texts elements) ->
  t <> [] /\ exists e, In e elements /\ HwpxXml.text_of e = Some t.
Proof.
  unfold HwpxXml.element_texts. intros H. apply in_flat_map in H.
  destruct H as [e [He Ht]].
  destruct (HwpxXml.text_of e) as [[|c s]|] eqn:E; try contradiction.
  destruct Ht as [<-|[]]. split; [discriminate|].
  exists e. split; assumption.
Qed.

(** Whatever the namespaces of a section XML, each text the extractor
    returns is the non-empty text of an element of the document whose local
    name is [t]; a document that does not parse gives the empty text. *)
Theorem hwpx_xml_only_t_texts :
  forall (fromstring : bytes -> HwpxXml.parsed) (xml_data : bytes),
    (forall root, fromstring xml_data = HwpxXml.Parsed root ->
       exists texts,
         HwpxXml._extract_text_from_hwpx_xml fromstring xml_data
         = Return (join [10] texts) /\
         Forall (fun t => t <> [] /\
                   exists e, In e (HwpxXml.iter root) /\
                             HwpxXml.local_name (HwpxXml.tag_of e) = lit "t" /\
                             HwpxXml.text_of e = Some t) texts) /\
    (fromstring xml_data = HwpxXml.ParseError ->
       HwpxXml._extract_text_from_hwpx_xml fromstring xml_data = Return []).
Proof.
  intros fromstring xml_data. split.
  2:{ intros H. unfold HwpxXml._extract_text_from_hwpx_xml. rewrite H.
      reflexivity. }
  intros root Hroot. unfold HwpxXml._extract_text_from_hwpx_xml.
  rewrite Hroot.
  assert (Hns : forall nss texts,
            HwpxXml.namespace_search root nss = Some texts ->
            Forall (fun t => t <> [] /\
                      exists e, In e (HwpxXml.iter root) /\
                                HwpxXml.local_name (HwpxXml.tag_of e) = lit "t" /\
                                HwpxXml.text_of e = Some t) texts).
  { induction nss as [|ns nss IH]; intros texts H; [discriminate|].
    cbn [HwpxXml.namespace_search] in H.
    destruct (nonempty (HwpxXml.findall_t root ns)); [|apply IH; exact H].
    injection H as <-. apply Forall_forall. intros t Ht.
    apply In_element_texts in Ht. destruct Ht as [Hne [e [He Htext]]].
    split; [exact Hne|]. exists e.
    unfold HwpxXml.findall_t in He. apply filter_In in He.
    destruct He as [Hin Htag]. apply str_eqb_eq in Htag.
    split; [|split; [|exact Htext]].
    - destruct root as [tag text children]. cbn [HwpxXml.iter].
      right. exact Hin.
    - rewrite Htag. apply local_name_of_t. }
  destruct (HwpxXml.namespace_search root HwpxXml.known_namespaces)
    as [texts|] eqn:E.
  - exists texts. split; [reflexivity|]. apply (Hns _ _ E).
  - exists (HwpxXml.fallback_texts root). split; [reflexivity|].
    apply Forall_forall. intros t Ht. unfold HwpxXml.fallback_texts in Ht.
    apply In_element_texts in Ht. destruct Ht as [Hne [e [He Htext]]].
    apply filter_In in He. destruct He as [Hin Hname].
    apply str_eqb_eq in Hname.
    split; [exact Hne|]. exists e. repeat split; assumption.
Qed.

Lemma str_eqb_refl (a : pystr) : str_eqb a a = true.
Proof. unfold str_eqb. destruct (list_eq_dec Z.eq_dec a a); congruence. Qed.

Lemma str_eqb_neq (a b : pystr) : a <> b -> str_eqb a b = false.
Proof. unfold str_eqb. destruct (list_eq_dec Z.eq_dec a b); congruence. Qed.

(** The extraction does not depend on the namespace: when the root is no
    [t] element and the [t] elements of the document all carry one
    namespace, known or not, the result is the non-empty texts of all the
    [t] elements, in document order, joined by newlines. *)
Theorem hwpx_xml_namespace_tolerant :
  forall (fromstring : bytes -> HwpxXml.parsed) (xml_data : bytes)
         (root : HwpxXml.element) (ns : pystr),
    fromstring xml_data = HwpxXml.Parsed root ->
    HwpxXml.local_name (HwpxXml.tag_of root) <> lit "t" ->
    (forall e, In e (HwpxXml.iter root) ->
       HwpxXml.local_name (HwpxXml.tag_of e) = lit "t" ->
       HwpxXml.tag_of e = lit "{" ++ ns ++ lit "}t") ->
    HwpxXml._extract_text_from_hwpx_xml fromstring xml_data =
      Return (join [10]
                (HwpxXml.element_texts
                   (filter (fun e => str_eqb (HwpxXml.local_name
                                                (HwpxXml.tag_of e)) (lit "t"))
                           (HwpxXml.iter root)))).
Proof.
  intros fromstring xml_data root ns Hroot Hnot Hall.
  unfold HwpxXml._extract_text_from_hwpx_xml. rewrite Hroot.
  fold (HwpxXml.fallback_texts root).
  assert (Hiter : HwpxXml.iter root
                  = root :: flat_map HwpxXml.iter (HwpxXml.children_of root))
    by (destruct root; reflexivity).
  assert (Hns : forall nss,
            HwpxXml.namespace_search root nss = None \/
            HwpxXml.namespace_search root nss
            = Some (HwpxXml.fallback_texts root)).
  { induction nss as [|n nss IH]; [left; reflexivity|].
    cbn [HwpxXml.namespace_search].
    destruct (nonempty (HwpxXml.findall_t root n)) eqn:Ene; [|exact IH].
    right. f_equal. unfold HwpxXml.fallback_texts. f_equal.
    assert (Hn : n = ns).
    { destruct (HwpxXml.findall_t root n) as [|e es] eqn:Ef; [discriminate|].
      assert (He : In e (HwpxXml.findall_t root n))
        by (rewrite Ef; left; reflexivity).
      unfold HwpxXml.findall_t in He. apply filter_In in He.
      destruct He as [Hin Htag]. apply str_eqb_eq in Htag.
      apply tag_t_injective. rewrite <- Htag. apply Hall.
      - rewrite Hiter. right. exact Hin.
      - rewrite Htag. apply local_name_of_t. }
    subst n. unfold HwpxXml.findall_t. rewrite Hiter. cbn [filter].
    rewrite (str_eqb_neq _ _ Hnot).
    apply filter_ext_in. intros e He.
    destruct (str_eqb (HwpxXml.local_name (HwpxXml.tag_of e)) (lit "t")) eqn:El.
    - apply str_eqb_eq in El.
      rewrite (Hall e);
        [apply str_eqb_refl | rewrite Hiter; right; exact He | exact El].
    - apply str_eqb_neq. intros Htag. rewrite Htag, local_name_of_t in El.
      rewrite str_eqb_refl in El. discriminate. }
  destruct (Hns HwpxXml.known_namespaces) as [-> | ->]; reflexivity.
Qed.

(** ** The further properties at concrete inputs *)

Lemma decode_encode_bmp_witness :
  forallb bmp_text_char [0xAC00; 65; 0x20AC] = true /\
  exists b : bytes,
    encode_utf16le [0xAC00; 65; 0x20AC] = Return b /\
    _decode_hwp_text b = Return [0xAC00; 65; 0x20AC].
Proof.
  split; [reflexivity|].
  exact (decode_encode_bmp [0xAC00; 65; 0x20AC] eq_refl).
Defined.

Lemma decode_hwp_text_app_witness :
  Z.even (len [x41; x00]) = true /\
  exists ta tb : pystr,
    _decode_hwp_text [x41; x00] = Return ta /\
    _decode_hwp_text [x0d; x00; x42] = Return tb /\
    _decode_hwp_text ([x41; x00] ++ [x0d; x00; x42]) = Return (ta ++ tb).
Proof.
  split; [reflexivity|].
  exact (decode_hwp_text_app [x41; x00] [x0d; x00; x42] eq_refl).
Defined.

Lemma tokenizer_reads_built_record_witness :
  read_record_header ([x00] ++ build example_short_record ++ [xff]) 1
  = Return (Some (67, 2, 5)) /\
  read_record_header (build example_long_record) 0
  = Return (Some (67, 4096, 8)) /\
  slice (build example_long_record) 8 (8 + 4096) = repeat x20 4096.
Proof.
  assert (Hs : len (rec_data example_short_record) < 2 ^ 32) by reflexivity.
  assert (Hl : len (rec_data example_long_record) < 2 ^ 32)
    by (vm_compute; reflexivity).
  pose proof (tokenizer_reads_built_record [x00] [xff] example_short_record Hs)
    as H1.
  pose proof (tokenizer_reads_built_record [] [] example_long_record Hl) as H2.
  cbv zeta in H1, H2. destruct H1 as [H1 _]. destruct H2 as [H2 [H3 _]].
  split; [exact H1|]. split.
  - rewrite app_nil_r in H2. exact H2.
  - rewrite app_nil_r in H3. exact H3.
Defined.


Lemma parse_pdf_failure_discards_text_witness :
  _parse_pdf example_world2 (lit "/data/fake.pdf")
  = Return (MSG_PDF_OPEN ++ lit "No /Root object") /\
  _parse_pdf example_world2 (lit "/data/halfscan.pdf")
  = Return (MSG_PDF_OPEN ++ lit "bad page").
Proof.
  split.
  - apply (proj1 (parse_pdf_failure_discards_text example_world2
                    (lit "/data/fake.pdf") (Exception (lit "No /Root object")))).
    reflexivity.
  - apply (proj2 (parse_pdf_failure_discards_text example_world2
                    (lit "/data/halfscan.pdf") (Exception (lit "bad page")))
             {| pdf_pages := [Ok (Some (lit "one"));
                              Err (Exception (lit "bad page"));
                              Ok (Some (lit "three"))] |}
             [Some (lit "one")] [Ok (Some (lit "three"))]);
      reflexivity.
Defined.


Lemma parse_hwpx_failures_witness :
  _parse_hwpx ascii_runtime example_world2 (lit "/data/fake.hwpx")
  = Return MSG_INVALID_HWPX /\
  _parse_hwpx ascii_runtime example_world2 (lit "/data/damaged.hwpx")
  = Return MSG_INVALID_HWPX /\
  _parse_hwpx ascii_runtime example_world3 (lit "/data/latin.hwpx")
  = Raise (Exception (lit "unknown encoding: nope")).
Proof.
  split; [|split].
  - apply (proj1 (parse_hwpx_failures ascii_runtime example_world2
                    (lit "/data/fake.hwpx")
                    (BadZipFile (lit "File is not a zip file")))).
    reflexivity.
  - apply (proj2 (parse_hwpx_failures ascii_runtime example_world2
                    (lit "/data/damaged.hwpx")
                    (BadZipFile (lit "Bad CRC-32 for file")))
             example_damaged_archive
             [lit "Contents/section0.xml"] (lit "Contents/section1.xml") []
             [[x7a; x65; x72; x6f]] [[]]).
    + reflexivity.
    + reflexivity.
    + reflexivity.
    + reflexivity.
    + left. reflexivity.
  - apply (proj2 (parse_hwpx_failures ascii_runtime example_world3
                    (lit "/data/latin.hwpx")
                    (Exception (lit "unknown encoding: nope")))
             example_unknown_encoding_archive
             [] (lit "Contents/content.xml") [] [] []).
    + reflexivity.
    + reflexivity.
    + reflexivity.
    + reflexivity.
    + right. exists example_unknown_encoding_xml. split; reflexivity.
Defined.



Lemma section_key_is_the_number_witness :
  section_key ascii_runtime ([lit "BodyText"] ++ [lit "Section" ++ lit "10"])
  = 10.
Proof.
  apply (section_key_is_the_number ascii_runtime [lit "BodyText"]
           (lit "Section") (lit "10")).
  - repeat constructor.
  - discriminate.
  - repeat constructor.
Defined.

Lemma clean_text_idempotent_on_stripped_lines_witness :
  _clean_text [97; 10; 10; 10; 10; 98] = [97; 10; 10; 98] /\
  _clean_text (_clean_text [97; 10; 10; 10; 10; 98])
  = _clean_text [97; 10; 10; 10; 10; 98].
Proof.
  apply (clean_text_idempotent_on_stripped_lines [97; 10; 10; 10; 10; 98]).
  - reflexivity.
  - repeat constructor.
Defined.

Lemma parse_corrupt_container_witness :
  parse ascii_runtime example_world2 (lit "/data/fake.hwp")
  = Return MSG_INVALID_HWP /\
  parse ascii_runtime example_world2 (lit "/data/fake.hwpx")
  = Return MSG_INVALID_HWPX /\
  exists details,
    parse ascii_runtime example_world2 (lit "/data/fake.pdf")
    = Return (TAG_PARSE_ERROR ++ details).
Proof.
  split; [|split].
  - apply (proj1 (parse_corrupt_container ascii_runtime example_world2
                    (lit "/data/fake.hwp") eq_refl)); reflexivity.
  - apply (proj1 (proj2 (parse_corrupt_container ascii_runtime example_world2
                           (lit "/data/fake.hwpx") eq_refl)) eq_refl
             (lit "File is not a zip file")).
    reflexivity.
  - apply (proj2 (proj2 (parse_corrupt_container ascii_runtime example_world2
                           (lit "/data/fake.pdf") eq_refl)) eq_refl
             (Exception (lit "No /Root object"))).
    reflexivity.
Defined.

Lemma parse_scanned_pdf_witness :
  parse ascii_runtime example_world (lit "/data/scan.pdf")
  = Return MSG_MANUAL_CHECK.
Proof.
  apply (parse_scanned_pdf ascii_runtime example_world (lit "/data/scan.pdf")
           {| pdf_pages := [Ok None; Ok (Some [])] |} [None; Some []]);
    reflexivity.
Defined.

Lemma parse_output_normalized_witness :
  exists text,
    parse ascii_runtime example_world2 (lit "/data/report.pdf") = Return text
    /\ strip text = text
    /\ Forall (fun line => strip line = line) (split_lines text).
Proof.
  apply (parse_output_normalized ascii_runtime example_world2
           (lit "/data/report.pdf")
           ([32; 32] ++ lit "report" ++ [32; 10; 10; 10; 10; 32] ++ lit "body"
            ++ [32]));
    reflexivity.
Defined.

Lemma get_file_info_predicts_parse_witness :
  (exists text,
     parse ascii_runtime example_world (lit "/data/scan.pdf") = Return text) /\
  exists info,
    get_file_info ascii_runtime example_world posix_basename
      (fun _ => Ok 1024) (lit "/data/missing.pdf") = Return info
    /\ size_bytes info = 0 /\ info_exists info = false.
Proof.
  split.
  - apply (proj1 (proj1 (get_file_info_predicts_parse ascii_runtime
                           example_world posix_basename (fun _ => Ok 1024)
                           (lit "/data/scan.pdf"))
                    {| file_name := lit "scan.pdf"; extension := lit ".pdf";
                       size_bytes := 1024; info_exists := true;
                       supported := true |} eq_refl)).
    split; reflexivity.
  - apply (proj2 (get_file_info_predicts_parse ascii_runtime example_world
                    posix_basename (fun _ => Ok 1024)
                    (lit "/data/missing.pdf"))).
    reflexivity.
Defined.

Lemma hwpx_xml_only_t_texts_witness :
  exists texts,
    HwpxXml._extract_text_from_hwpx_xml
      (fun _ => HwpxXml.Parsed (HwpxXml.example_root example_namespace)) []
    = Return (join [10] texts) /\
    Forall (fun t => t <> [] /\
              exists e,
                In e (HwpxXml.iter (HwpxXml.example_root example_namespace)) /\
                HwpxXml.local_name (HwpxXml.tag_of e) = lit "t" /\
                HwpxXml.text_of e = Some t) texts.
Proof.
  apply (proj1 (hwpx_xml_only_t_texts
                  (fun _ => HwpxXml.Parsed
                              (HwpxXml.example_root example_namespace)) [])).
  reflexivity.
Defined.

Lemma hwpx_xml_namespace_tolerant_witness :
  HwpxXml._extract_text_from_hwpx_xml
    (fun _ => HwpxXml.Parsed (HwpxXml.example_root example_namespace)) []
  = Return (lit "first" ++ [10] ++ lit "second") /\
  HwpxXml._extract_text_from_hwpx_xml
    (fun _ => HwpxXml.Parsed
                (HwpxXml.example_root
                   (lit "http://www.hancom.co.kr/hwpml/2011/paragraph"))) []
  = Return (lit "first" ++ [10] ++ lit "second").
Proof.
  split.
  - apply (hwpx_xml_namespace_tolerant
             (fun _ => HwpxXml.Parsed (HwpxXml.example_root example_namespace))
             [] (HwpxXml.example_root example_namespace) example_namespace).
    + reflexivity.
    + vm_compute. discriminate.
    + intros e He Hname. simpl in He.
      destruct He as [<-|[<-|[<-|[<-|[<-|[<-|[]]]]]]];
        try reflexivity; vm_compute in Hname; discriminate Hname.
  - apply (hwpx_xml_namespace_tolerant
             (fun _ => HwpxXml.Parsed
                         (HwpxXml.example_root
                            (lit "http://www.hancom.co.kr/hwpml/2011/paragraph")))
             [] (HwpxXml.example_root
                   (lit "http://www.hancom.co.kr/hwpml/2011/paragraph"))
             (lit "http://www.hancom.co.kr/hwpml/2011/paragraph")).
    + reflexivity.
    + vm_compute. discriminate.
    + intros e He Hname. simpl in He.
      destruct He as [<-|[<-|[<-|[<-|[<-|[<-|[]]]]]]];
        try reflexivity; vm_compute in Hname; discriminate Hname.
Defined.
